(** * Bulk-Clear Formatting: the text stripper and the bulk-edit workflow

    A shallow embedding of [src/bulk_clear_formatting.py] and of the legacy
    [src/__init__.py].

    Strings are Stdlib [string]s, read as the UTF-8 bytes of the Python
    [str]: the two patterns of the add-on only tell apart the ASCII
    characters [<], [>], newline and the letters of [img] and [br], none of
    which occurs inside a multi-byte sequence, so matching bytes and
    matching code points remove the same substrings. *)

From Equations Require Import Equations.
From stdpp Require Import gmap strings list fin_maps.
From Stdlib Require Import Ascii String DecimalString Lia.

Local Open Scope string_scope.

(** ** A backtracking matcher for the fragment of [re] the add-on uses *)

Module Re.

(** What one pattern position accepts. [Dot] is Python's [.] compiled
    without [re.DOTALL]: any character but the newline. *)
Inductive charset :=
| Lit (c : ascii)
| Dot.

Definition newline : ascii := "010"%char.

Definition accepts (cs : charset) (c : ascii) : bool :=
  match cs with
  | Lit d => Ascii.eqb c d
  | Dot => negb (Ascii.eqb c newline)
  end.

Inductive regex :=
| Eps
| Chr (cs : charset)
| Cat (r1 r2 : regex)
| Alt (r1 r2 : regex)
| NegLook (r : regex)          (* (?!r)  *)
| LazyStar (cs : charset).     (* cs*?   *)

(** The literal word [w] as a pattern. *)
Fixpoint word (w : string) : regex :=
  match w with
  | EmptyString => Eps
  | String c w' => Cat (Chr (Lit c)) (word w')
  end.

(** [cs*?] followed by the continuation [k]: the shortest repetition first,
    one more character only when the rest of the pattern fails. *)
Fixpoint lazy_star (cs : charset) (k : string -> option string) (s : string)
  : option string :=
  match k s with
  | Some rest => Some rest
  | None =>
      match s with
      | EmptyString => None
      | String c s' => if accepts cs c then lazy_star cs k s' else None
      end
  end.

(** [matchk r s k]: match [r] at the start of [s], then the continuation [k]
    on what is left; the result is the text after the whole match. *)
Fixpoint matchk (r : regex) (s : string) (k : string -> option string)
  : option string :=
  match r with
  | Eps => k s
  | Chr cs =>
      match s with
      | EmptyString => None
      | String c s' => if accepts cs c then k s' else None
      end
  | Cat r1 r2 => matchk r1 s (fun s' => matchk r2 s' k)
  | Alt r1 r2 =>
      match matchk r1 s k with
      | Some rest => Some rest
      | None => matchk r2 s k
      end
  | NegLook r1 =>
      match matchk r1 s Some with
      | Some _ => None
      | None => k s
      end
  | LazyStar cs => lazy_star cs k s
  end.

(** [pattern.match(s)]: the text after the match, if there is one. *)
Definition match_at (pat : regex) (s : string) : option string :=
  matchk pat s Some.

(** [re.sub(pat, repl, s)] with a constant replacement: scan from the left;
    where the pattern matches, emit [repl] and go on after the match; where
    it does not, copy one character. An empty match emits [repl] and copies
    the character. *)
Equations? sub (pat : regex) (repl : string) (s : string) : string
  by wf (String.length s) lt :=
  sub pat repl EmptyString :=
    match match_at pat EmptyString with
    | Some _ => repl
    | None => EmptyString
    end;
  sub pat repl (String c s') with match_at pat (String c s') := {
    | None => String c (sub pat repl s')
    | Some rest with lt_dec (String.length rest) (String.length (String c s')) := {
      | left _ => repl ++ sub pat repl rest
      | right _ => repl ++ String c (sub pat repl s') } }.
Proof. all: simpl in *; lia. Qed.

End Re.

(** ** The text stripper *)

(** ["<(?!img).*?>"] *)
Definition pat_img : Re.regex :=
  Re.Cat (Re.Chr (Re.Lit "<"))
    (Re.Cat (Re.NegLook (Re.word "img"))
       (Re.Cat (Re.LazyStar Re.Dot) (Re.Chr (Re.Lit ">")))).

(** ["<(?!img|br).*?>"] *)
Definition pat_img_br : Re.regex :=
  Re.Cat (Re.Chr (Re.Lit "<"))
    (Re.Cat (Re.NegLook (Re.Alt (Re.word "img") (Re.word "br")))
       (Re.Cat (Re.LazyStar Re.Dot) (Re.Chr (Re.Lit ">")))).

(** [stripFormatting(txt, preserve_br=False)] of [bulk_clear_formatting.py]. *)
Definition stripFormatting (txt : string) (preserve_br : bool) : string :=
  if preserve_br
  then Re.sub pat_img_br "" txt
  else Re.sub pat_img "" txt.

Module Legacy.

(** ["<(?!img).*?>"], as [__init__.py] writes it. *)
Definition pat : Re.regex :=
  Re.Cat (Re.Chr (Re.Lit "<"))
    (Re.Cat (Re.NegLook (Re.word "img"))
       (Re.Cat (Re.LazyStar Re.Dot) (Re.Chr (Re.Lit ">")))).

(** [stripFormatting(txt)] of [__init__.py]. *)
Definition stripFormatting (txt : string) : string :=
  Re.sub pat "" txt.

End Legacy.

(** ** Reading the two patterns as a scanner

    What the matcher does on the two patterns, written out: the definitions
    below are proved equal to [Re.match_at] on [pat_img] and [pat_img_br]
    (lemma [match_at_pattern]) and serve to state and prove the properties
    of the stripper. *)

(** The negative lookahead fails: the text after [<] begins with [img], or
    with [br] when line breaks are kept. *)
Definition exempt (preserve_br : bool) (s : string) : bool :=
  String.prefix "img" s || (preserve_br && String.prefix "br" s).

(** [.*?>]: the text after the first [>], unless a newline comes first. *)
Fixpoint tag_end (s : string) : option string :=
  match s with
  | EmptyString => None
  | String c s' =>
      if Ascii.eqb c ">" then Some s'
      else if Ascii.eqb c Re.newline then None
      else tag_end s'
  end.

Definition tag_match (preserve_br : bool) (s : string) : option string :=
  match s with
  | EmptyString => None
  | String c s' =>
      if Ascii.eqb c "<" && negb (exempt preserve_br s') then tag_end s'
      else None
  end.

(** [needle in hay] *)
Fixpoint contains (needle hay : string) : bool :=
  String.prefix needle hay ||
  match hay with
  | EmptyString => false
  | String _ hay' => contains needle hay'
  end.

Fixpoint has_gt (s : string) : bool :=
  match s with
  | EmptyString => false
  | String c s' => Ascii.eqb c ">" || has_gt s'
  end.

(** Some [<] of [s] has a [>] somewhere after it: [s] has a substring of the
    form [<...>]. *)
Fixpoint has_angle_pair (s : string) : bool :=
  match s with
  | EmptyString => false
  | String c s' => (Ascii.eqb c "<" && has_gt s') || has_angle_pair s'
  end.

(** [open_lt s b]: reading [s] from the left, is the last [<] still waiting
    for a [>] or a newline at the end of [s]? ([b]: it was on entry.) *)
Fixpoint open_lt (s : string) (b : bool) : bool :=
  match s with
  | EmptyString => b
  | String c s' =>
      if Ascii.eqb c "<" then open_lt s' true
      else if Ascii.eqb c ">" || Ascii.eqb c Re.newline then open_lt s' false
      else open_lt s' b
  end.

(** No character of [s] is [<], [>] or a newline. *)
Fixpoint plain (s : string) : bool :=
  match s with
  | EmptyString => true
  | String c s' =>
      negb (Ascii.eqb c "<") && negb (Ascii.eqb c ">")
      && negb (Ascii.eqb c Re.newline) && plain s'
  end.

Definition dquote : ascii := "034"%char.

(** The image tag of the specification's test, [<img src="x">]. *)
Definition img_tag : string :=
  "<img src=" ++ String dquote ("x" ++ String dquote ">").

(** A bold tag broken over two lines. *)
Definition multiline_tag : string :=
  "<b" ++ String Re.newline ">".

(** ** The host application, as far as the add-on uses it *)

Inductive exn :=
| NotFoundError      (* col.get_note on an id the collection lacks *)
| TypeError          (* a missing note type: col.get_note, models.field_names(None) *)
| IndexError.        (* note.fields[i] past the end *)

Inductive outcome (A : Type) :=
| Done (a : A)
| Raised (e : exn).
Arguments Done {A} a.
Arguments Raised {A} e.

(** A note: its field values and, through [note_type()] and
    [models.field_names], the field names of its note type ([None] when the
    note type is missing). *)
Record Note := mkNote {
  fields : list string;
  note_type : option (list string)
}.

(** The calls into the host that the workflow makes, in order. *)
Inductive event :=
| Checkpoint (name : string)
| ProgressStart
| Flush (nid : N) (note : Note)
| ProgressFinish
| Reset
| Close
| Tooltip (msg : string).

Record host := mkHost {
  col : gmap N Note;
  log : list event
}.

(** Host state threaded through the calls, with Python's exceptions. *)
Definition M (A : Type) : Type := host -> outcome A * host.

Definition ret {A} (a : A) : M A := fun w => (Done a, w).

Definition raise {A} (e : exn) : M A := fun w => (Raised e, w).

Definition bind {A B} (c : M A) (k : A -> M B) : M B :=
  fun w =>
    match c w with
    | (Done a, w') => k a w'
    | (Raised e, w') => (Raised e, w')
    end.

Notation "x <- c ;; k" := (bind c (fun x => k))
  (at level 100, c at next level, right associativity).
Notation "c ;;; k" := (bind c (fun _ => k))
  (at level 100, right associativity).

Definition emit (e : event) : M unit :=
  fun w => (Done tt, mkHost (col w) (log w ++ [e])).

(** [mw.col.get_note(nid)]: the host raises [NotFoundError] on an id the
    collection lacks, and [TypeError] while it loads a note whose note type is
    missing, so a note that is returned has a note type. *)
Definition get_note (nid : N) : M Note :=
  fun w =>
    match col w !! nid with
    | Some note =>
        match note_type note with
        | Some _ => (Done note, w)
        | None => (Raised TypeError, w)
        end
    | None => (Raised NotFoundError, w)
    end.

(** [note.flush()]: the note object is handed to the host, which writes it
    to the collection. The note is stored as it is handed over: what the host
    does to field text of its own accord when it writes is not part of the
    add-on and is not modelled. *)
Definition flush (nid : N) (note : Note) : M unit :=
  fun w => (Done tt, mkHost (<[nid := note]> (col w)) (log w ++ [Flush nid note])).

(** [mw.col.models.field_names(note.note_type())] *)
Definition field_names_of (note : Note) : outcome (list string) :=
  match note_type note with
  | Some names => Done names
  | None => Raised TypeError
  end.

Definition lift {A} (o : outcome A) : M A := fun w => (o, w).

(** [str(n)] for a length. *)
Definition str (n : nat) : string := NilEmpty.string_of_uint (Nat.to_uint n).

(** [names.index(x)] guarded by [x in names]: [None] when absent. *)
Fixpoint index_of (x : string) (names : list string) : option nat :=
  match names with
  | [] => None
  | y :: names' =>
      if String.eqb x y then Some 0 else option_map S (index_of x names')
  end.

(** ** The bulk-edit workflow: [ClearFormattingDialog] *)

Record ClearFormattingDialog := mkDialog {
  nids : list N;                  (* self._nids *)
  checkbox_all : bool;            (* self.checkbox_all.isChecked() *)
  checkbox_preserve_br : bool;    (* self.checkbox_preserve_br.isChecked() *)
  field_selector : string         (* self.field_selector.currentText() *)
}.

(** One turn of [for i, field in enumerate(note.fields)]. *)
Definition clear_field_at (preserve_br : bool) (st : list string * nat) (i : nat)
  : list string * nat :=
  let '(fs, count) := st in
  match fs !! i with
  | None => (fs, count)
  | Some field =>
      let result := stripFormatting field preserve_br in
      if String.eqb result field then (fs, count)
      else (<[i := result]> fs, S count)
  end.

(** The [clear_all] branch on one note. *)
Definition clear_all_fields (preserve_br : bool) (fs : list string) (count : nat)
  : list string * nat :=
  foldl (clear_field_at preserve_br) (fs, count) (seq 0 (List.length fs)).

(** The single-field branch on one note. *)
Definition clear_named_field (field_name : string) (preserve_br : bool)
    (note : Note) (count : nat) : outcome (Note * nat) :=
  match field_names_of note with
  | Raised e => Raised e
  | Done field_names =>
      match index_of field_name field_names with
      | None => Done (note, count)
      | Some field_index =>
          match fields note !! field_index with
          | None => Raised IndexError
          | Some current =>
              let result := stripFormatting current preserve_br in
              if String.eqb result current then Done (note, count)
              else Done (mkNote (<[field_index := result]> (fields note))
                                (note_type note), S count)
          end
      end
  end.

(** Lines 165-180: what one turn of the outer loop does to the note object
    and to [count]. *)
Definition note_step (self : ClearFormattingDialog) (note : Note) (count : nat)
  : outcome (Note * nat) :=
  if checkbox_all self
  then let '(fs, count') :=
         clear_all_fields (checkbox_preserve_br self) (fields note) count in
       Done (mkNote fs (note_type note), count')
  else clear_named_field (field_selector self) (checkbox_preserve_br self)
         note count.

(** The body of [for nid in self._nids]: fetch, clear, flush. *)
Definition clear_note (self : ClearFormattingDialog) (nid : N) (count : nat)
  : M nat :=
  note <- get_note nid ;;
  r <- lift (note_step self note count) ;;
  flush nid (fst r) ;;;
  ret (snd r).

Fixpoint for_nids (self : ClearFormattingDialog) (l : list N) (count : nat)
  : M nat :=
  match l with
  | [] => ret count
  | nid :: l' => count' <- clear_note self nid count ;; for_nids self l' count'
  end.

(** Lines 161-182: [count = 0] and the loop; the result is the final value of
    [count]. *)
Definition applying (self : ClearFormattingDialog) : M nat :=
  for_nids self (nids self) 0.

(** The text of the confirmation prompt. *)
Definition question (self : ClearFormattingDialog) : string :=
  if checkbox_all self
  then "This will clear formatting in <b>ALL fields</b> of <b>"
       ++ str (List.length (nids self)) ++ " selected note(s)</b>. Proceed?"
  else "This will clear formatting in the <b>'" ++ field_selector self
       ++ "'</b> field of <b>" ++ str (List.length (nids self))
       ++ " selected note(s)</b>. Proceed?".

(** The text of the closing tooltip. *)
Definition summary (self : ClearFormattingDialog) : string :=
  if checkbox_all self
  then "<b>Cleared formatting</b> in " ++ str (List.length (nids self)) ++ " note(s)."
  else "<b>Cleared formatting</b> in '" ++ field_selector self
       ++ "' field of " ++ str (List.length (nids self)) ++ " note(s).".

(** [on_confirm]; [askUser] is the user's answer to a prompt. *)
Definition on_confirm (self : ClearFormattingDialog) (askUser : string -> bool)
  : M unit :=
  if negb (askUser (question self)) then ret tt
  else
    emit (Checkpoint "Clear Formatting") ;;;
    emit ProgressStart ;;;
    _ <- applying self ;;
    emit ProgressFinish ;;;
    emit Reset ;;;
    emit Close ;;;
    emit (Tooltip (summary self)).

(** The notes the log says were flushed, in order. *)
Definition flushed (l : list event) : list N :=
  omap (fun e => match e with Flush nid _ => Some nid | _ => None end) l.

(** The host's invariant on a note: it has a note type, with as many field
    names as the note has fields. *)
Definition note_ok (note : Note) : bool :=
  match note_type note with
  | Some names => Nat.eqb (List.length names) (List.length (fields note))
  | None => false
  end.

(** Every selected id is a note of the collection, and a well-formed one. *)
Definition selection_ok (l : list N) (c : gmap N Note) : bool :=
  forallb (fun nid => match c !! nid with
                      | Some note => note_ok note
                      | None => false
                      end) l.

(** How many of the fields stripping changes. *)
Definition changed_count (preserve_br : bool) (fs : list string) : nat :=
  List.length
    (List.filter (fun f => negb (String.eqb (stripFormatting f preserve_br) f)) fs).

(** Stripping changes some field of the note. *)
Definition note_changes (preserve_br : bool) (note : Note) : bool :=
  existsb (fun f => negb (String.eqb (stripFormatting f preserve_br) f))
    (fields note).

(** The end-to-end example of the specification: three selected notes, all
    fields, the third one plain text. *)
Definition e2e_col : gmap N Note :=
  <[1%N := mkNote ["<b>A</b>"; "B"] (Some ["Front"; "Back"])]>
  (<[2%N := mkNote ["C"; "<i>D</i>"] (Some ["Front"; "Back"])]>
  (<[3%N := mkNote ["plain"; "text"] (Some ["Front"; "Back"])]> ∅)).

Definition e2e_host : host := mkHost e2e_col [].

Definition e2e_dialog : ClearFormattingDialog :=
  mkDialog [1%N; 2%N; 3%N] true false "Front".

(** A selection over two note types, in single-field scope: the second
    note's type has no field called [Front]. *)
Definition mixed_col : gmap N Note :=
  <[1%N := mkNote ["<b>A</b>"; "B"] (Some ["Front"; "Back"])]>
  (<[2%N := mkNote ["<i>x</i>"; "y"] (Some ["Text"; "Extra"])]> ∅).

Definition mixed_host : host := mkHost mixed_col [].

Definition mixed_dialog : ClearFormattingDialog :=
  mkDialog [2%N; 1%N] false false "Front".

Definition yes : string -> bool := fun _ => true.
Definition no : string -> bool := fun _ => false.

(** ** The rest of the add-on *)

(** No character of [s] is [>] or a newline: [s] can be the inside of a
    match of the patterns. *)
Fixpoint inline (s : string) : bool :=
  match s with
  | EmptyString => true
  | String c s' =>
      negb (Ascii.eqb c ">") && negb (Ascii.eqb c Re.newline) && inline s'
  end.

Definition is_flush (e : event) : bool :=
  match e with
  | Flush _ _ => true
  | _ => false
  end.

(** [ClearFormattingDialog.get_fields]: the field names of the first selected
    note. *)
Definition get_fields (self_nids : list N) : M (option (list string)) :=
  match self_nids with
  | [] => ret None
  | nid :: _ => note <- get_note nid ;; ret (note_type note)
  end.

Module LegacyBrowser.

(** The local [clearField] of [onClearFormatting]. *)
Definition clearField (field : string) : string :=
  Legacy.stripFormatting field.

(** The body and the iteration of [for nid in browser.selectedNotes()]. *)
Fixpoint for_selected (l : list N) : M unit :=
  match l with
  | [] => ret tt
  | nid :: l' =>
      note <- get_note nid ;;
      flush nid (mkNote (map clearField (fields note)) (note_type note)) ;;;
      for_selected l'
  end.

(** [onClearFormatting(browser)] of [__init__.py], on the selected ids. *)
Definition onClearFormatting (selectedNotes : list N) : M unit :=
  emit (Checkpoint "Bulk-Clear Formatting") ;;;
  emit ProgressStart ;;;
  for_selected selectedNotes ;;;
  emit ProgressFinish ;;;
  emit Reset.

End LegacyBrowser.

(** *** The editor's context menu *)

(** What the editor functions call on the editor. *)
Inductive editor_event :=
| LoadNoteKeepingFocus
| EditorTooltip (msg : string).

(** What a menu entry does when triggered: the lambdas of the source. *)
Inductive callback :=
| OpenDialog                                        (* onClearFormatting(browser) *)
| ClearCurrent (field : nat) (field_name : string)  (* clear_current_field(e, field, field_name) *)
| ClearAll.                                         (* clear_all_fields_editor(e) *)

Inductive menu_item :=
| Separator
| Action (label : string) (triggered : callback).

(** [clear_current_field(editor, field_index, field_name)]; the first
    argument is [editor.note]. The result is the note object afterwards and
    the calls made on the editor. *)
Definition clear_current_field (editor_note : option Note) (field_index : nat)
    (field_name : string) : outcome (option Note * list editor_event) :=
  match editor_note with
  | None => Done (None, [])
  | Some note =>
      match fields note !! field_index with
      | None => Raised IndexError
      | Some original =>
          let cleaned := stripFormatting original true in
          if String.eqb cleaned original
          then Done (Some note,
                     [EditorTooltip ("No formatting to clear in '" ++ field_name ++ "'")])
          else Done (Some (mkNote (<[field_index := cleaned]> (fields note))
                                  (note_type note)),
                     [LoadNoteKeepingFocus;
                      EditorTooltip ("Cleared formatting in '" ++ field_name ++ "'")])
      end
  end.

(** One turn of the loop of [clear_all_fields_editor]. *)
Definition clear_editor_field_at (st : list string * bool) (i : nat)
  : list string * bool :=
  let '(fs, changed) := st in
  match fs !! i with
  | None => (fs, changed)
  | Some field =>
      let cleaned := stripFormatting field true in
      if String.eqb cleaned field then (fs, changed)
      else (<[i := cleaned]> fs, true)
  end.

(** [clear_all_fields_editor(editor)] *)
Definition clear_all_fields_editor (editor_note : option Note)
  : option Note * list editor_event :=
  match editor_note with
  | None => (None, [])
  | Some note =>
      let '(fs, changed) :=
        foldl clear_editor_field_at (fields note, false)
          (seq 0 (List.length (fields note))) in
      if negb changed
      then (Some (mkNote fs (note_type note)),
            [EditorTooltip "No formatting to clear"])
      else (Some (mkNote fs (note_type note)),
            [LoadNoteKeepingFocus; EditorTooltip "Cleared formatting in all fields"])
  end.

(** [add_to_editor_context(view, menu)]: the arguments are [e.note] and
    [e.currentField]; the result is the menu afterwards. *)
Definition add_to_editor_context (editor_note : option Note)
    (currentField : option nat) (menu : list menu_item)
  : outcome (list menu_item) :=
  match editor_note with
  | None => Done menu
  | Some note =>
      let menu1 := (menu ++ [Separator])%list in
      let all_fields := Action "Clear Formatting in All Fields" ClearAll in
      match currentField with
      | None => Done (menu1 ++ [all_fields])%list
      | Some field =>
          match field_names_of note with
          | Raised e => Raised e
          | Done field_names =>
              match field_names !! field with
              | Some field_name =>
                  Done (menu1
                        ++ [Action ("Clear Formatting in '" ++ field_name ++ "'")
                              (ClearCurrent field field_name)]
                        ++ [all_fields])%list
              | None => Done (menu1 ++ [all_fields])%list
              end
          end
      end
  end.

(** [add_to_browser_context(browser, menu)] on the selected ids. *)
Definition add_to_browser_context (selectedNotes : list N)
    (menu : list menu_item) : list menu_item :=
  match selectedNotes with
  | [] => menu
  | _ => (menu ++ [Separator; Action "Clear Formatting..." OpenDialog])%list
  end.

(** A note with a line-break tag, open in the editor. *)
Definition editor_note_ex : Note :=
  mkNote ["<b>one</b><br>two"; "plain"] (Some ["Front"; "Back"]).

Example strip_ex1 : stripFormatting "<b>hi</b>" false = "hi".
Proof. reflexivity. Qed.

Example strip_ex2 : stripFormatting "<i><b>nested</b></i>" false = "nested".
Proof. vm_compute. reflexivity. Qed.

Example e2e_run :
  let '(r, w) := on_confirm e2e_dialog yes e2e_host in
  r = Done tt /\
  col w !! 1%N = Some (mkNote ["A"; "B"] (Some ["Front"; "Back"])) /\
  col w !! 2%N = Some (mkNote ["C"; "D"] (Some ["Front"; "Back"])) /\
  flushed (log w) = [1%N; 2%N; 3%N] /\
  last (log w) = Some (Tooltip "<b>Cleared formatting</b> in 3 note(s).").
Proof. vm_compute. repeat split. Qed.

(** * Properties *)

(** ** The matcher on the two patterns *)

Lemma matchk_word (w s : string) :
  match Re.matchk (Re.word w) s Some with Some _ => true | None => false end
  = String.prefix w s.
Proof.
  revert s; induction w as [|c w IH]; intros s; simpl.
  - destruct s; reflexivity.
  - destruct s as [|a s]; [reflexivity|]; simpl.
    destruct (ascii_dec c a) as [->|Hne].
    + rewrite Ascii.eqb_refl. apply IH.
    + destruct (Ascii.eqb_spec a c); [congruence | reflexivity].
Qed.

Lemma tag_end_lazy_star (s : string) :
  Re.lazy_star Re.Dot (fun s' => Re.matchk (Re.Chr (Re.Lit ">")) s' Some) s
  = tag_end s.
Proof.
  induction s as [|c s IH]; simpl; [reflexivity|].
  destruct (Ascii.eqb c ">"); [reflexivity|].
  destruct (Ascii.eqb c Re.newline); simpl; [reflexivity | exact IH].
Qed.

Lemma match_at_pattern (preserve_br : bool) (s : string) :
  Re.match_at (if preserve_br then pat_img_br else pat_img) s
  = tag_match preserve_br s.
Proof.
  destruct s as [|c s]; [destruct preserve_br; reflexivity|].
  unfold tag_match, exempt.
  pose proof (matchk_word "img" s) as Himg.
  pose proof (matchk_word "br" s) as Hbr.
  destruct preserve_br; unfold Re.match_at, pat_img, pat_img_br;
    cbn [Re.matchk Re.accepts]; destruct (Ascii.eqb c "<"); try reflexivity;
    rewrite <- Himg; try rewrite <- Hbr;
    cbn [andb orb negb];
    destruct (Re.matchk (Re.word "img") s Some); try reflexivity;
    try destruct (Re.matchk (Re.word "br") s Some); try reflexivity;
    cbn [andb orb negb]; apply tag_end_lazy_star.
Qed.

Lemma tag_end_shorter (s rest : string) :
  tag_end s = Some rest -> String.length rest <= String.length s.
Proof.
  revert rest; induction s as [|c s IH]; intros rest; simpl; [discriminate|].
  destruct (Ascii.eqb c ">"); [intros [= ->]; lia|].
  destruct (Ascii.eqb c Re.newline); [discriminate|].
  intros H; apply IH in H; lia.
Qed.

Lemma tag_match_shorter (p : bool) (s rest : string) :
  tag_match p s = Some rest -> String.length rest < String.length s.
Proof.
  destruct s as [|c s]; simpl; [discriminate|].
  destruct (_ && _); [|discriminate].
  intros H; apply tag_end_shorter in H; lia.
Qed.

(** The stripper as a scanner: a tag is dropped, anything else is copied. *)
Lemma strip_nil (p : bool) : stripFormatting "" p = "".
Proof. destruct p; reflexivity. Qed.

Lemma strip_cons (c : ascii) (s : string) (p : bool) :
  stripFormatting (String c s) p =
  match tag_match p (String c s) with
  | Some rest => stripFormatting rest p
  | None => String c (stripFormatting s p)
  end.
Proof.
  pose proof (match_at_pattern p (String c s)) as Hm.
  pose proof (tag_match_shorter p (String c s)) as Hlt.
  unfold stripFormatting.
  destruct p; rewrite Re.sub_equation_2, Hm;
    (destruct (tag_match _ (String c s)) as [rest|];
     [ specialize (Hlt rest eq_refl); simp sub;
       destruct (lt_dec _ _); [simp sub; reflexivity | contradiction]
     | simp sub; reflexivity ]).
Qed.

Lemma strip_copy (c : ascii) (s : string) (p : bool) :
  tag_match p (String c s) = None ->
  stripFormatting (String c s) p = String c (stripFormatting s p).
Proof. intros H; rewrite strip_cons, H; reflexivity. Qed.

Lemma strip_other (c : ascii) (s : string) (p : bool) :
  Ascii.eqb c "<" = false ->
  stripFormatting (String c s) p = String c (stripFormatting s p).
Proof. intros H; apply strip_copy; simpl; rewrite H; reflexivity. Qed.

Lemma strip_exempt (s : string) (p : bool) :
  exempt p s = true ->
  stripFormatting (String "<" s) p = String "<" (stripFormatting s p).
Proof. intros H; apply strip_copy; simpl; rewrite H; reflexivity. Qed.

(** A tag that is neither exempt nor broken by a newline is removed. *)
Lemma strip_tag (s rest : string) (p : bool) :
  exempt p s = false -> tag_end s = Some rest ->
  stripFormatting (String "<" s) p = stripFormatting rest p.
Proof. intros He Ht; rewrite strip_cons; simpl; rewrite He; simpl; rewrite Ht; reflexivity. Qed.

Lemma has_gt_tag_end (s : string) : has_gt s = false -> tag_end s = None.
Proof.
  induction s as [|c s IH]; simpl; [reflexivity|].
  destruct (Ascii.eqb c ">"); simpl; [discriminate|].
  intros H; rewrite (IH H); destruct (Ascii.eqb c Re.newline); reflexivity.
Qed.

Lemma tag_end_none_tag_match (c : ascii) (s : string) (p : bool) :
  tag_end (String c s) = None -> tag_match p (String c s) = None.
Proof.
  simpl. destruct (Ascii.eqb_spec c "<") as [->|_]; [|reflexivity].
  simpl. intros ->. destruct (negb _); reflexivity.
Qed.

(** Stripping never closes a [<] that no [>] closed on its line. *)
Lemma tag_end_strip_none (s : string) (p : bool) :
  tag_end s = None -> tag_end (stripFormatting s p) = None.
Proof.
  induction s as [|c s IH]; intros H.
  - rewrite strip_nil; reflexivity.
  - rewrite (strip_copy _ _ _ (tag_end_none_tag_match c s p H)).
    simpl in *. destruct (Ascii.eqb c ">"); [discriminate|].
    destruct (Ascii.eqb c Re.newline); [reflexivity | auto].
Qed.

Lemma prefix_cons_inv (a : ascii) (w s : string) :
  String.prefix (String a w) s = true ->
  exists s', s = String a s' /\ String.prefix w s' = true.
Proof.
  destruct s as [|b s]; simpl; [discriminate|].
  destruct (ascii_dec a b) as [->|]; [eauto | discriminate].
Qed.

Lemma prefix_strip (w s : string) (p : bool) :
  has_angle_pair (w ++ ">") = false -> String.prefix w s = true ->
  String.prefix w (stripFormatting s p) = true.
Proof.
  revert s; induction w as [|a w IH]; intros s Hw Hp.
  - destruct (stripFormatting s p); reflexivity.
  - apply prefix_cons_inv in Hp as (s' & -> & Hp).
    simpl in Hw. apply orb_false_elim in Hw as [Ha Hw].
    assert (Hlt : Ascii.eqb a "<" = false).
    { destruct (Ascii.eqb a "<"); [|reflexivity]. simpl in Ha.
      exfalso. clear -Ha. induction w; simpl in *; [discriminate|].
      apply orb_false_elim in Ha as [_ Ha]; auto. }
    rewrite (strip_other _ _ _ Hlt). simpl.
    destruct (ascii_dec a a); [auto | congruence].
Qed.

Lemma exempt_strip (s : string) (p : bool) :
  exempt p s = true -> exempt p (stripFormatting s p) = true.
Proof.
  unfold exempt. intros H. apply orb_true_iff in H as [H|H].
  - rewrite (prefix_strip "img" s p eq_refl H). reflexivity.
  - apply andb_true_iff in H as [-> H].
    rewrite (prefix_strip "br" s true eq_refl H). apply orb_true_r.
Qed.

Lemma tag_match_strip_none (c : ascii) (s : string) (p : bool) :
  tag_match p (String c s) = None ->
  tag_match p (String c (stripFormatting s p)) = None.
Proof.
  simpl. destruct (Ascii.eqb c "<"); [|reflexivity]. simpl.
  destruct (exempt p s) eqn:He.
  - rewrite (exempt_strip _ _ He). reflexivity.
  - simpl. intros H. rewrite (tag_end_strip_none _ _ H).
    destruct (negb _); reflexivity.
Qed.

Lemma strip_idempotent_upto (n : nat) (p : bool) :
  forall s, String.length s <= n ->
  stripFormatting (stripFormatting s p) p = stripFormatting s p.
Proof.
  induction n as [|n IH]; intros [|c s] Hn; simpl in Hn;
    try (rewrite !strip_nil; reflexivity); try lia.
  rewrite (strip_cons c s).
  destruct (tag_match p (String c s)) as [rest|] eqn:Hm.
  - apply IH. apply tag_match_shorter in Hm. simpl in Hm. lia.
  - rewrite (strip_copy _ _ _ (tag_match_strip_none _ _ _ Hm)).
    f_equal. apply IH. lia.
Qed.

(** C6. The stripper is idempotent: stripping an already stripped string,
    with the same flag, changes nothing. *)
Theorem stripFormatting_idempotent (s : string) (p : bool) :
  stripFormatting (stripFormatting s p) p = stripFormatting s p.
Proof. apply (strip_idempotent_upto (String.length s)); lia. Qed.

Lemma strip_no_angle_pair (s : string) (p : bool) :
  has_angle_pair s = false -> stripFormatting s p = s.
Proof.
  induction s as [|c s IH]; intros H; [apply strip_nil|].
  simpl in H. apply orb_false_elim in H as [Hc Hs].
  rewrite strip_copy, (IH Hs); [reflexivity|].
  simpl. destruct (Ascii.eqb c "<"); [|reflexivity].
  simpl in Hc. rewrite (has_gt_tag_end _ Hc). destruct (negb _); reflexivity.
Qed.

(** ** Substrings *)

Lemma prefix_spec (w s : string) :
  String.prefix w s = true <-> exists v, s = w ++ v.
Proof.
  revert s; induction w as [|a w IH]; intros s.
  - split; [intros _; exists s; reflexivity | destruct s; reflexivity].
  - split.
    + intros H. apply prefix_cons_inv in H as (s' & -> & H).
      apply IH in H as [v ->]. exists v. reflexivity.
    + intros [v ->]. simpl. destruct (ascii_dec a a); [|congruence].
      apply IH. eauto.
Qed.


Lemma has_gt_spec (s : string) :
  has_gt s = true <-> exists v w, s = v ++ ">" ++ w.
Proof.
  induction s as [|c s IH]; simpl.
  - split; [discriminate | intros ([|]&?&?); discriminate].
  - rewrite orb_true_iff, IH. split.
    + intros [H|(v & w & ->)].
      * apply Ascii.eqb_eq in H as ->. exists "", s. reflexivity.
      * exists (String c v), w. reflexivity.
    + intros ([|a v] & w & H); simpl in H; injection H as -> ->.
      * left. reflexivity.
      * right. eauto.
Qed.

(** [has_angle_pair] decides "contains a substring of the form [<...>]". *)
Lemma has_angle_pair_spec (s : string) :
  has_angle_pair s = true <-> exists u v w, s = u ++ "<" ++ v ++ ">" ++ w.
Proof.
  induction s as [|c s IH]; simpl.
  - split; [discriminate | intros ([|]&?&?&?); discriminate].
  - rewrite orb_true_iff, andb_true_iff, IH, has_gt_spec. split.
    + intros [[Hc (v & w & ->)]|(u & v & w & ->)].
      * apply Ascii.eqb_eq in Hc as ->. exists "", v, w. reflexivity.
      * exists (String c u), v, w. reflexivity.
    + intros ([|a u] & v & w & H); simpl in H; injection H as -> ->.
      * left. split; [reflexivity | eauto].
      * right. eauto.
Qed.

(** C7. A string with no substring of the form [<...>] is returned as it is,
    whatever the flag; in particular the empty string gives the empty
    string. *)
Theorem stripFormatting_no_tag (s : string) (p : bool) :
  has_angle_pair s = false ->
  stripFormatting s p = s /\ stripFormatting "" p = "".
Proof.
  intros H. split; [apply strip_no_angle_pair, H | apply strip_nil].
Qed.

Lemma stripFormatting_no_tag_witness :
  has_angle_pair "x > y and <" = false /\
  stripFormatting "x > y and <" true = "x > y and <" /\
  stripFormatting "" true = "".
Proof.
  split; [reflexivity|].
  apply (stripFormatting_no_tag "x > y and <" true). reflexivity.
Defined.

(** [line1<br>line2] loses its [<br>] when line breaks are not kept and is
    returned whole when they are. *)
Example strip_br_examples :
  stripFormatting "line1<br>line2" false = "line1line2" /\
  stripFormatting "line1<br>line2" true = "line1<br>line2".
Proof. split; vm_compute; reflexivity. Qed.

(** C10. The one-argument stripper of the legacy module and the two-argument
    one called with [preserve_br=False] return the same string. *)
Theorem legacy_stripFormatting_agrees (txt : string) :
  Legacy.stripFormatting txt = stripFormatting txt false.
Proof. reflexivity. Qed.

(** C4. A tag broken over two lines is not removed: the [.] of the pattern
    does not match a newline, so [<b], newline, [>] is not a match and is
    copied to the result, while the [</b>] after it is removed. *)
Theorem stripFormatting_multiline_tag_kept :
  contains multiline_tag (multiline_tag ++ "hi</b>") = true /\
  stripFormatting (multiline_tag ++ "hi</b>") false = multiline_tag ++ "hi" /\
  stripFormatting (multiline_tag ++ "hi</b>") true = multiline_tag ++ "hi".
Proof. repeat split; vm_compute; reflexivity. Qed.

(** ** Stripping a concatenation *)

Lemma open_lt_true_false (s : string) :
  open_lt s true = false -> open_lt s false = false.
Proof.
  induction s as [|c s IH]; simpl; [discriminate|].
  destruct (Ascii.eqb c "<"); [auto|].
  destruct (_ || _); auto.
Qed.

Lemma tag_end_open_lt (s rest : string) (b : bool) :
  tag_end s = Some rest -> open_lt s b = open_lt rest false.
Proof.
  revert b; induction s as [|c s IH]; intros b; simpl; [discriminate|].
  destruct (Ascii.eqb_spec c ">") as [->|Hgt]; [intros [= ->]; reflexivity|].
  destruct (Ascii.eqb c Re.newline); [discriminate|]. simpl.
  intros H. destruct (Ascii.eqb c "<"); auto.
Qed.

Lemma tag_end_app (s rest : string) :
  open_lt s true = false ->
  tag_end (s ++ rest) = option_map (fun r => r ++ rest) (tag_end s).
Proof.
  induction s as [|c s IH]; simpl; [discriminate|].
  destruct (Ascii.eqb_spec c ">") as [->|Hgt]; [reflexivity|].
  destruct (Ascii.eqb c Re.newline); [reflexivity|]. simpl.
  destruct (Ascii.eqb c "<"); auto.
Qed.

Lemma prefix_app_open (w s rest : string) :
  plain w = true -> open_lt s true = false ->
  String.prefix w (s ++ rest) = String.prefix w s.
Proof.
  revert s; induction w as [|a w IH]; intros s Hw Hs.
  - destruct s; [discriminate | reflexivity].
  - destruct s as [|c s]; [discriminate|]. simpl.
    destruct (ascii_dec a c) as [->|]; [|reflexivity].
    simpl in Hw, Hs.
    destruct (Ascii.eqb c "<"); [discriminate|].
    destruct (Ascii.eqb c ">"); [discriminate|].
    destruct (Ascii.eqb c Re.newline); [discriminate|].
    simpl in Hw, Hs. auto.
Qed.

Lemma exempt_app (s rest : string) (p : bool) :
  open_lt s true = false -> exempt p (s ++ rest) = exempt p s.
Proof.
  intros H. unfold exempt.
  rewrite (prefix_app_open "img" s rest eq_refl H).
  rewrite (prefix_app_open "br" s rest eq_refl H). reflexivity.
Qed.

Lemma tag_match_app (c : ascii) (s rest : string) (p : bool) :
  open_lt (String c s) false = false ->
  tag_match p (String c (s ++ rest))
  = option_map (fun r => r ++ rest) (tag_match p (String c s)).
Proof.
  simpl. destruct (Ascii.eqb c "<"); [|reflexivity].
  intros H. rewrite (exempt_app _ _ _ H). simpl.
  destruct (negb _); [apply tag_end_app, H | reflexivity].
Qed.

Lemma strip_app_upto (n : nat) (rest : string) (p : bool) :
  forall s, String.length s <= n -> open_lt s false = false ->
  stripFormatting (s ++ rest) p = stripFormatting s p ++ stripFormatting rest p.
Proof.
  induction n as [|n IH]; intros [|c s] Hn Hs; simpl in Hn;
    try (rewrite strip_nil; reflexivity); try lia.
  change (String c s ++ rest) with (String c (s ++ rest)).
  rewrite !strip_cons, (tag_match_app _ _ _ _ Hs).
  destruct (tag_match p (String c s)) as [r|] eqn:Hm; simpl.
  - apply IH.
    + apply tag_match_shorter in Hm. simpl in Hm. lia.
    + simpl in Hm, Hs. destruct (Ascii.eqb c "<"); [|discriminate].
      simpl in Hm. destruct (negb _); [|discriminate].
      rewrite <- (tag_end_open_lt _ _ true Hm). exact Hs.
  - change (String c (stripFormatting s p) ++ stripFormatting rest p)
      with (String c (stripFormatting s p ++ stripFormatting rest p)).
    f_equal. apply IH; [lia|]. simpl in Hs.
    destruct (Ascii.eqb c "<"); [apply open_lt_true_false, Hs|].
    destruct (_ || _); exact Hs.
Qed.

(** Where no [<] of [s] is left open at its end, what follows [s] is
    stripped on its own. *)
Lemma strip_app (s rest : string) (p : bool) :
  open_lt s false = false ->
  stripFormatting (s ++ rest) p = stripFormatting s p ++ stripFormatting rest p.
Proof. apply (strip_app_upto (String.length s)); lia. Qed.




Example img_tag_survives_run :
  stripFormatting ("<b>see</b> " ++ img_tag ++ "<i>!</i>") true
  = "see " ++ img_tag ++ "!".
Proof. vm_compute. reflexivity. Qed.


(** ** The workflow on one note *)

Lemma clear_fields_from (p : bool) (suf pre : list string) (c : nat) :
  foldl (clear_field_at p) ((pre ++ suf)%list, c) (seq (List.length pre) (List.length suf))
  = ((pre ++ map (fun f => stripFormatting f p) suf)%list, c + changed_count p suf).
Proof.
  revert pre c; induction suf as [|f suf IH]; intros pre c.
  - simpl. rewrite Nat.add_0_r. reflexivity.
  - cbn [List.length seq foldl]. unfold clear_field_at at 2.
    rewrite (list_lookup_middle pre suf f (List.length pre) eq_refl).
    unfold changed_count. cbn [List.filter map].
    destruct (String.eqb_spec (stripFormatting f p) f) as [E|NE]; cbn [negb].
    + rewrite E.
      replace (pre ++ f :: suf)%list with ((pre ++ [f]) ++ suf)%list
        by (rewrite <- app_assoc; reflexivity).
      replace (S (List.length pre)) with (List.length (pre ++ [f])%list)
        by (rewrite length_app; simpl; lia).
      rewrite IH, <- app_assoc. reflexivity.
    + rewrite insert_app_r_alt by lia. rewrite Nat.sub_diag. cbn [insert list_insert].
      replace (pre ++ stripFormatting f p :: suf)%list
        with ((pre ++ [stripFormatting f p]) ++ suf)%list
        by (rewrite <- app_assoc; reflexivity).
      replace (S (List.length pre)) with (List.length (pre ++ [stripFormatting f p])%list)
        by (rewrite length_app; simpl; lia).
      rewrite IH, <- app_assoc. unfold changed_count. simpl. f_equal. lia.
Qed.

(** The [clear_all] branch strips every field and counts the changed ones. *)
Lemma clear_all_fields_spec (p : bool) (fs : list string) (c : nat) :
  clear_all_fields p fs c
  = (map (fun f => stripFormatting f p) fs, c + changed_count p fs).
Proof. apply (clear_fields_from p fs [] c). Qed.

Lemma note_changes_false (p : bool) (note : Note) :
  note_changes p note = false ->
  map (fun f => stripFormatting f p) (fields note) = fields note
  /\ changed_count p (fields note) = 0.
Proof.
  unfold note_changes, changed_count.
  induction (fields note) as [|f fs IH]; simpl; [auto|].
  intros H. apply orb_false_elim in H as [Hf Hfs].
  rewrite Hf. apply negb_false_iff, String.eqb_eq in Hf.
  destruct (IH Hfs) as [-> ->]. rewrite Hf. auto.
Qed.

Lemma index_of_lt (x : string) (names : list string) (i : nat) :
  index_of x names = Some i -> i < List.length names.
Proof.
  revert i; induction names as [|y names IH]; intros i; simpl; [discriminate|].
  destruct (String.eqb x y); [intros [= <-]; lia|].
  destruct (index_of x names) as [j|]; simpl; [|discriminate].
  intros [= <-]. specialize (IH j eq_refl). lia.
Qed.

(** [index_of] answers [None] exactly when the name is not in the list. *)
Lemma index_of_None (x : string) (names : list string) :
  index_of x names = None <-> ~ In x names.
Proof.
  induction names as [|y names IH]; simpl; [tauto|].
  destruct (String.eqb_spec x y) as [->|NE].
  - split; [discriminate | tauto].
  - destruct (index_of x names); simpl.
    + split; [discriminate|]. intros H. exfalso. apply H. right.
      destruct (in_dec string_dec x names) as [Hin|Hnin]; [exact Hin|].
      apply IH in Hnin. discriminate.
    + split; [|reflexivity]. intros _ [E|H]; [congruence|]. now apply IH.
Qed.

Lemma note_changes_fixed (p : bool) (note : Note) (f : string) :
  note_changes p note = false -> In f (fields note) -> stripFormatting f p = f.
Proof.
  unfold note_changes. intros H Hin.
  destruct (String.eqb_spec (stripFormatting f p) f) as [E|NE]; [exact E|].
  assert (existsb (fun f => negb (String.eqb (stripFormatting f p) f))
            (fields note) = true) as Hex; [|congruence].
  apply existsb_exists. exists f. split; [exact Hin|].
  apply negb_true_iff, String.eqb_neq, NE.
Qed.

(** On a well-formed note the loop body raises nothing and leaves the note
    well-formed. *)
Lemma note_step_ok (self : ClearFormattingDialog) (note : Note) (count : nat) :
  note_ok note = true ->
  exists note' count',
    note_step self note count = Done (note', count') /\ note_ok note' = true.
Proof.
  unfold note_ok, note_step, clear_named_field, field_names_of.
  destruct note as [fs [names|]]; simpl; [|discriminate]. intros Hok.
  apply Nat.eqb_eq in Hok.
  destruct (checkbox_all self).
  - rewrite clear_all_fields_spec. eexists _, _. split; [reflexivity|].
    simpl. rewrite length_map. apply Nat.eqb_eq, Hok.
  - destruct (index_of (field_selector self) names) as [i|] eqn:Hi.
    + apply index_of_lt in Hi. rewrite Hok in Hi.
      destruct (lookup_lt_is_Some_2 fs i Hi) as [cur ->].
      destruct (String.eqb _ cur); eexists _, _; (split; [reflexivity|]); simpl.
      * apply Nat.eqb_eq, Hok.
      * rewrite length_insert. apply Nat.eqb_eq, Hok.
    + eexists _, _. split; [reflexivity|]. simpl. apply Nat.eqb_eq, Hok.
Qed.

(** A note none of whose fields changes under stripping comes out of the loop
    body as it went in, and [count] with it. *)
Lemma note_step_unchanged (self : ClearFormattingDialog) (note note' : Note)
    (count count' : nat) :
  note_changes (checkbox_preserve_br self) note = false ->
  note_step self note count = Done (note', count') ->
  note' = note /\ count' = count.
Proof.
  intros Hn. unfold note_step, clear_named_field, field_names_of.
  destruct (checkbox_all self).
  - rewrite clear_all_fields_spec.
    destruct (note_changes_false _ _ Hn) as [-> ->].
    intros [= <- <-]. destruct note; split; [reflexivity | simpl; lia].
  - destruct (note_type note) as [names|]; [|discriminate].
    destruct (index_of _ names) as [i|]; [|intros [= <- <-]; auto].
    destruct (fields note !! i) as [cur|] eqn:Hcur; [|discriminate].
    rewrite (note_changes_fixed _ _ cur Hn), String.eqb_refl.
    + intros [= <- <-]; auto.
    + apply list_elem_of_In, list_elem_of_lookup. eauto.
Qed.

(** The single-field branch on a note whose type lacks the field name. *)
Lemma note_step_absent (self : ClearFormattingDialog) (note : Note)
    (names : list string) (count : nat) :
  checkbox_all self = false -> note_type note = Some names ->
  index_of (field_selector self) names = None ->
  note_step self note count = Done (note, count).
Proof.
  intros Hall Hty Hidx. unfold note_step, clear_named_field, field_names_of.
  rewrite Hall, Hty, Hidx. reflexivity.
Qed.

(** ** The loop over the selection *)

Lemma get_note_inv (nid : N) (w : host) (note : Note) :
  fst (get_note nid w) = Done note ->
  col w !! nid = Some note /\ exists names, note_type note = Some names.
Proof.
  unfold get_note. destruct (col w !! nid) as [n|]; [|discriminate].
  destruct (note_type n) as [names|] eqn:Hty; [|discriminate].
  intros [= <-]. eauto.
Qed.

Lemma get_note_typed (nid : N) (w : host) (note : Note) (names : list string) :
  col w !! nid = Some note -> note_type note = Some names ->
  fst (get_note nid w) = Done note.
Proof. intros Hn Hty. unfold get_note. rewrite Hn, Hty. reflexivity. Qed.

Lemma get_note_ok (nid : N) (w : host) (note : Note) :
  col w !! nid = Some note -> note_ok note = true ->
  fst (get_note nid w) = Done note.
Proof.
  intros Hn Hok. unfold note_ok in Hok.
  destruct (note_type note) as [names|] eqn:Hty; [|discriminate].
  apply (get_note_typed _ _ _ names Hn Hty).
Qed.

Lemma get_note_missing (nid : N) (w : host) :
  col w !! nid = None -> fst (get_note nid w) = Raised NotFoundError.
Proof. intros Hn. unfold get_note. rewrite Hn. reflexivity. Qed.

Lemma clear_note_unfold (self : ClearFormattingDialog) (nid : N) (count : nat)
    (w : host) :
  clear_note self nid count w =
  match fst (get_note nid w) with
  | Raised e => (Raised e, w)
  | Done note =>
      match note_step self note count with
      | Raised e => (Raised e, w)
      | Done (note', count') =>
          (Done count',
           mkHost (<[nid := note']> (col w)) (log w ++ [Flush nid note']))
      end
  end.
Proof.
  unfold clear_note, bind, get_note, lift, flush, ret.
  destruct (col w !! nid) as [n|]; [|reflexivity].
  destruct (note_type n); [|reflexivity]. cbn [fst].
  destruct (note_step self n count) as [[? ?]|]; reflexivity.
Qed.

Lemma selection_ok_insert (l : list N) (c : gmap N Note) (nid : N) (note : Note) :
  selection_ok l c = true -> note_ok note = true ->
  selection_ok l (<[nid := note]> c) = true.
Proof.
  unfold selection_ok. intros Hl Hn. rewrite forallb_forall in *.
  intros x Hx. specialize (Hl x Hx).
  destruct (decide (nid = x)) as [->|NE].
  - rewrite lookup_insert_eq. exact Hn.
  - rewrite lookup_insert_ne by exact NE. exact Hl.
Qed.

Lemma flushed_snoc (l : list event) (e : event) :
  flushed (l ++ [e])
  = (flushed l ++ match e with Flush nid _ => [nid] | _ => [] end)%list.
Proof. unfold flushed. rewrite omap_app. destruct e; reflexivity. Qed.

(** On a well-formed selection the loop runs to its end, and flushes the
    selected notes one after the other. *)
Lemma for_nids_ok (self : ClearFormattingDialog) (l : list N) :
  forall count w,
  selection_ok l (col w) = true ->
  exists count' w',
    for_nids self l count w = (Done count', w')
    /\ flushed (log w') = (flushed (log w) ++ l)%list.
Proof.
  induction l as [|nid l IH]; intros count w Hok.
  - exists count, w. split; [reflexivity|]. rewrite app_nil_r. reflexivity.
  - cbn [for_nids]. unfold bind. rewrite clear_note_unfold.
    cbn [selection_ok forallb] in Hok. apply andb_true_iff in Hok as [Hnid Hl].
    destruct (col w !! nid) as [note|] eqn:Hn; [|discriminate].
    rewrite (get_note_ok _ _ _ Hn Hnid).
    destruct (note_step_ok self note count Hnid) as (note' & c' & -> & Hok').
    destruct (IH c' (mkHost (<[nid := note']> (col w)) (log w ++ [Flush nid note'])))
      as (c'' & w' & Hrun & Hfl).
    { simpl. apply selection_ok_insert; assumption. }
    exists c'', w'. split; [exact Hrun|].
    rewrite Hfl. simpl. rewrite flushed_snoc, <- app_assoc. reflexivity.
Qed.

(** A note that the loop body returns as it is keeps its stored value through
    the whole loop, however the loop ends. *)
Lemma for_nids_stable (self : ClearFormattingDialog) (nid : N) (note : Note) :
  (forall c note' c', note_step self note c = Done (note', c') -> note' = note) ->
  forall l count w r w',
  col w !! nid = Some note ->
  for_nids self l count w = (r, w') ->
  col w' !! nid = Some note.
Proof.
  intros Hst. induction l as [|x l IH]; intros count w r w' Hn.
  - intros [= <- <-]. exact Hn.
  - cbn [for_nids]. unfold bind. rewrite clear_note_unfold.
    destruct (fst (get_note x w)) as [nx|e0] eqn:Hx; [|intros [= <- <-]; exact Hn].
    apply get_note_inv in Hx as [Hx _].
    destruct (note_step self nx count) as [[nx' c']|e] eqn:Hstep;
      [|intros [= <- <-]; exact Hn].
    apply IH. simpl.
    destruct (decide (x = nid)) as [->|NE].
    + rewrite lookup_insert_eq. rewrite Hn in Hx. injection Hx as <-.
      f_equal. eapply Hst, Hstep.
    + rewrite lookup_insert_ne by exact NE. exact Hn.
Qed.

(** ** The claims about the workflow *)

(** C2. When the user does not confirm, [on_confirm] returns before any call
    into the host: the collection and the log are what they were, so no field
    of any note is changed and no note is flushed. *)
Theorem on_confirm_cancelled (self : ClearFormattingDialog)
    (askUser : string -> bool) (w : host) :
  askUser (question self) = false ->
  on_confirm self askUser w = (Done tt, w).
Proof. intros H. unfold on_confirm. rewrite H. reflexivity. Qed.

Lemma on_confirm_cancelled_witness :
  no (question e2e_dialog) = false /\
  on_confirm e2e_dialog no e2e_host = (Done tt, e2e_host).
Proof.
  split; [reflexivity|].
  apply (on_confirm_cancelled e2e_dialog no e2e_host). reflexivity.
Defined.

(** C1, as amended. On a well-formed selection the Applying phase runs to its
    end and flushes every selected note, in selection order, whether or not
    one of its fields changed; a note none of whose fields changes under
    stripping is stored after the run with the value it had before. *)
Theorem applying_flushes_every_note (self : ClearFormattingDialog) (w : host) :
  selection_ok (nids self) (col w) = true ->
  exists count w',
    applying self w = (Done count, w')
    /\ flushed (log w') = (flushed (log w) ++ nids self)%list
    /\ forall nid note,
         col w !! nid = Some note ->
         note_changes (checkbox_preserve_br self) note = false ->
         col w' !! nid = Some note.
Proof.
  intros Hok.
  destruct (for_nids_ok self (nids self) 0 w Hok) as (count & w' & Hrun & Hfl).
  exists count, w'. split; [exact Hrun|]. split; [exact Hfl|].
  intros nid note Hn Hch.
  eapply (for_nids_stable self nid note); [|exact Hn|exact Hrun].
  intros c note' c' Hstep.
  apply (note_step_unchanged _ _ _ _ _ Hch Hstep).
Qed.

Lemma applying_flushes_every_note_witness :
  selection_ok (nids e2e_dialog) (col e2e_host) = true /\
  exists count w',
    applying e2e_dialog e2e_host = (Done count, w')
    /\ flushed (log w') = (flushed (log e2e_host) ++ nids e2e_dialog)%list
    /\ forall nid note,
         col e2e_host !! nid = Some note ->
         note_changes (checkbox_preserve_br e2e_dialog) note = false ->
         col w' !! nid = Some note.
Proof.
  split; [reflexivity|].
  apply (applying_flushes_every_note e2e_dialog e2e_host). reflexivity.
Defined.

(** C1, refuted as stated. In the end-to-end example the third note is plain
    text, no field of it changes, and it is flushed all the same. *)
Lemma unchanged_note_flushed :
  col e2e_host !! 3%N = Some (mkNote ["plain"; "text"] (Some ["Front"; "Back"]))
  /\ note_changes false (mkNote ["plain"; "text"] (Some ["Front"; "Back"])) = false
  /\ fst (applying e2e_dialog e2e_host) = Done 2
  /\ log (snd (applying e2e_dialog e2e_host))
     = [Flush 1%N (mkNote ["A"; "B"] (Some ["Front"; "Back"]));
        Flush 2%N (mkNote ["C"; "D"] (Some ["Front"; "Back"]));
        Flush 3%N (mkNote ["plain"; "text"] (Some ["Front"; "Back"]))].
Proof. repeat split; vm_compute; reflexivity. Qed.

(** C8, as amended. On a well-formed selection and an affirmative answer,
    [on_confirm] ends with a tooltip that states the number of selected notes,
    each of which was flushed, and, in single-field scope, the field name; in
    all-fields scope it names no field. The value of [count] is not in it. *)
Theorem on_confirm_summary (self : ClearFormattingDialog)
    (askUser : string -> bool) (w : host) :
  askUser (question self) = true ->
  selection_ok (nids self) (col w) = true ->
  exists w',
    on_confirm self askUser w = (Done tt, w')
    /\ last (log w')
       = Some (Tooltip
           (if checkbox_all self
            then "<b>Cleared formatting</b> in "
                 ++ str (List.length (nids self)) ++ " note(s)."
            else "<b>Cleared formatting</b> in '" ++ field_selector self
                 ++ "' field of " ++ str (List.length (nids self)) ++ " note(s)."))
    /\ flushed (log w') = (flushed (log w) ++ nids self)%list.
Proof.
  intros Hask Hok. unfold on_confirm. rewrite Hask. cbn [negb].
  unfold bind at 1. cbn [emit]. unfold bind at 1. cbn [emit]. unfold bind at 1.
  set (w1 := mkHost _ _).
  destruct (for_nids_ok self (nids self) 0 w1) as (count & w2 & Hrun & Hfl);
    [exact Hok|].
  unfold applying. rewrite Hrun. unfold bind, emit. cbn [col log].
  eexists. split; [reflexivity|]. cbn [log]. split.
  - rewrite last_snoc. reflexivity.
  - rewrite !flushed_snoc, !app_nil_r, Hfl. subst w1. cbn [log].
    rewrite !flushed_snoc, !app_nil_r. reflexivity.
Qed.

Lemma on_confirm_summary_witness :
  yes (question e2e_dialog) = true /\
  selection_ok (nids e2e_dialog) (col e2e_host) = true /\
  exists w',
    on_confirm e2e_dialog yes e2e_host = (Done tt, w')
    /\ last (log w') = Some (Tooltip "<b>Cleared formatting</b> in 3 note(s).")
    /\ flushed (log w') = [1%N; 2%N; 3%N].
Proof.
  split; [reflexivity|]. split; [reflexivity|].
  destruct (on_confirm_summary e2e_dialog yes e2e_host eq_refl eq_refl)
    as (w' & Hrun & Hlast & Hfl).
  exists w'. split; [exact Hrun|]. split; [exact Hlast | exact Hfl].
Defined.

(** C8, refuted as stated. In the end-to-end example two notes and two fields
    change, [count] ends at 2, and the tooltip says 3 notes: the number in the
    summary is neither the number of notes changed nor the number of fields
    changed. *)
Lemma summary_not_change_count :
  fst (applying e2e_dialog e2e_host) = Done 2
  /\ List.length
       (List.filter (fun nid => match col e2e_host !! nid with
                                | Some note => note_changes false note
                                | None => false
                                end) (nids e2e_dialog)) = 2
  /\ last (log (snd (on_confirm e2e_dialog yes e2e_host)))
     = Some (Tooltip "<b>Cleared formatting</b> in 3 note(s).")
  /\ contains (str 2) "<b>Cleared formatting</b> in 3 note(s)." = false.
Proof. repeat split; vm_compute; reflexivity. Qed.

(** C9. In single-field scope, a selected note whose note type does not list
    the requested field name raises nothing and is left as it is: the loop
    flushes it unchanged, with [count] unchanged, and goes on with the
    remaining notes; and the note is stored with the same fields after any
    run of the loop. *)
Theorem absent_field_skipped (self : ClearFormattingDialog) (w : host)
    (nid : N) (note : Note) (names : list string) :
  checkbox_all self = false ->
  col w !! nid = Some note ->
  note_type note = Some names ->
  index_of (field_selector self) names = None ->
  (forall count rest,
     for_nids self (nid :: rest) count w
     = for_nids self rest count (mkHost (col w) (log w ++ [Flush nid note])))
  /\ (forall l count r w',
        for_nids self l count w = (r, w') -> col w' !! nid = Some note).
Proof.
  intros Hall Hn Hty Hidx. split.
  - intros count rest. cbn [for_nids]. unfold bind.
    rewrite clear_note_unfold, (get_note_typed _ _ _ _ Hn Hty),
      (note_step_absent _ _ _ _ Hall Hty Hidx).
    rewrite (insert_id _ _ _ Hn). reflexivity.
  - intros l count r w' Hrun.
    eapply (for_nids_stable self nid note); [|exact Hn|exact Hrun].
    intros c note' c'. rewrite (note_step_absent _ _ _ _ Hall Hty Hidx).
    intros [= <- _]. reflexivity.
Qed.

Lemma absent_field_skipped_witness :
  checkbox_all mixed_dialog = false /\
  col mixed_host !! 2%N = Some (mkNote ["<i>x</i>"; "y"] (Some ["Text"; "Extra"])) /\
  index_of (field_selector mixed_dialog) ["Text"; "Extra"] = None /\
  (forall l count r w',
     for_nids mixed_dialog l count mixed_host = (r, w') ->
     col w' !! 2%N = Some (mkNote ["<i>x</i>"; "y"] (Some ["Text"; "Extra"]))).
Proof.
  split; [reflexivity|]. split; [reflexivity|]. split; [reflexivity|].
  apply (absent_field_skipped mixed_dialog mixed_host 2%N
           (mkNote ["<i>x</i>"; "y"] (Some ["Text"; "Extra"])) ["Text"; "Extra"]);
    reflexivity.
Defined.

(** The run of the mixed selection: the note without a [Front] field is
    flushed as it was, the other one is stripped, and the loop ends with one
    change counted. *)
Example mixed_run :
  applying mixed_dialog mixed_host
  = (Done 1,
     mkHost (<[1%N := mkNote ["A"; "B"] (Some ["Front"; "Back"])]> mixed_col)
       [Flush 2%N (mkNote ["<i>x</i>"; "y"] (Some ["Text"; "Extra"]));
        Flush 1%N (mkNote ["A"; "B"] (Some ["Front"; "Back"]))]).
Proof. vm_compute. reflexivity. Qed.

(** ** Line-break tags in general *)

Lemma strip_plain (body rest : string) (p : bool) :
  plain body = true ->
  stripFormatting (body ++ rest) p = body ++ stripFormatting rest p.
Proof.
  induction body as [|c body IH]; intros H; [reflexivity|].
  simpl in H. repeat (apply andb_true_iff in H as [H ?]).
  change (String c body ++ rest) with (String c (body ++ rest)).
  rewrite strip_other by (apply negb_true_iff; assumption).
  rewrite IH by assumption. reflexivity.
Qed.

Lemma tag_end_plain (body rest : string) :
  plain body = true -> tag_end (body ++ String ">" rest) = Some rest.
Proof.
  induction body as [|c body IH]; intros H; [reflexivity|].
  simpl in H. repeat (apply andb_true_iff in H as [H ?]).
  change (String c body ++ String ">" rest) with (String c (body ++ String ">" rest)).
  cbn [tag_end].
  repeat match goal with
         | E : negb _ = true |- _ => apply negb_true_iff in E; rewrite E
         end.
  auto.
Qed.

(** A [<br ...>] tag whose inside has no [<], [>] or newline is removed when
    line breaks are not kept, and copied when they are. *)
Lemma strip_br_tag (body rest : string) :
  plain body = true ->
  stripFormatting ("<br" ++ body ++ String ">" rest) false
  = stripFormatting rest false
  /\ stripFormatting ("<br" ++ body ++ String ">" rest) true
     = "<br" ++ body ++ String ">" (stripFormatting rest true).
Proof.
  intros H. split.
  - change ("<br" ++ body ++ String ">" rest)
      with (String "<" (String "b" (String "r" (body ++ String ">" rest)))).
    apply strip_tag; [reflexivity|].
    cbn [tag_end Ascii.eqb Bool.eqb]. apply tag_end_plain, H.
  - change ("<br" ++ body ++ String ">" rest)
      with (String "<" (String "b" (String "r" (body ++ String ">" rest)))).
    rewrite strip_exempt.
    2:{ unfold exempt. apply orb_true_iff. right.
        apply (proj2 (prefix_spec "br" _)). eexists. reflexivity. }
    rewrite !strip_other by reflexivity.
    rewrite strip_plain by exact H.
    rewrite strip_other by reflexivity. reflexivity.
Qed.

(** C5, as amended. [line1<br>line2] loses its [<br>] when line breaks are not
    kept and is returned whole when they are. In general, a tag that begins
    with [br] right after [<], has no [<], [>] or newline before its closing
    [>], and comes after a text that leaves no [<] open, is removed when the
    flag is false and copied whole when it is true; the text before it and
    the text after it are stripped on their own. *)
Theorem stripFormatting_br_rule (pre body rest : string) :
  open_lt pre false = false ->
  plain body = true ->
  stripFormatting "line1<br>line2" false = "line1line2"
  /\ stripFormatting "line1<br>line2" true = "line1<br>line2"
  /\ stripFormatting (pre ++ "<br" ++ body ++ String ">" rest) false
     = stripFormatting pre false ++ stripFormatting rest false
  /\ stripFormatting (pre ++ "<br" ++ body ++ String ">" rest) true
     = stripFormatting pre true
       ++ "<br" ++ body ++ String ">" (stripFormatting rest true).
Proof.
  intros Hpre Hbody.
  destruct (strip_br_tag body rest Hbody) as [Hf Ht].
  split; [vm_compute; reflexivity|]. split; [vm_compute; reflexivity|].
  rewrite !(strip_app pre _ _ Hpre), Hf, Ht. split; reflexivity.
Qed.

Lemma stripFormatting_br_rule_witness :
  open_lt "a <b>c</b>" false = false /\
  plain " /" = true /\
  stripFormatting "line1<br>line2" false = "line1line2"
  /\ stripFormatting "line1<br>line2" true = "line1<br>line2"
  /\ stripFormatting ("a <b>c</b>" ++ "<br" ++ " /" ++ String ">" "<i>d</i>") false
     = stripFormatting "a <b>c</b>" false ++ stripFormatting "<i>d</i>" false
  /\ stripFormatting ("a <b>c</b>" ++ "<br" ++ " /" ++ String ">" "<i>d</i>") true
     = stripFormatting "a <b>c</b>" true
       ++ "<br" ++ " /" ++ String ">" (stripFormatting "<i>d</i>" true).
Proof.
  split; [reflexivity|]. split; [reflexivity|].
  apply (stripFormatting_br_rule "a <b>c</b>" " /" "<i>d</i>"); reflexivity.
Defined.

Example stripFormatting_br_rule_run :
  stripFormatting "a <b>c</b><br /><i>d</i>" false = "a cd" /\
  stripFormatting "a <b>c</b><br /><i>d</i>" true = "a c<br />d".
Proof. split; vm_compute; reflexivity. Qed.

(** C5, refuted as stated. Not every tag that begins with [br] follows the
    flag: with line breaks kept, [<br <i>x>] comes out as [<br x>], because
    the [<i] inside it starts a match that ends at the tag's own [>]; and with
    line breaks not kept, a [<br] whose [>] is on the next line stays in
    place. *)
Lemma br_tag_not_by_flag :
  stripFormatting "<br <i>x>" true = "<br x>"
  /\ stripFormatting ("a<br" ++ String Re.newline ">b") false
     = "a<br" ++ String Re.newline ">b".
Proof. split; vm_compute; reflexivity. Qed.

(** * Further properties of the stripper *)

(** X1. The substitution is a one-pass scanner: at a [<] that is not followed
    by an exempt name and has a [>] before the next newline, the text up to
    and with that [>] is dropped and the scan goes on after it; any other
    character is copied and the scan goes on at the next one. *)
Theorem stripFormatting_scanner (p : bool) :
  (forall s, Re.match_at (if p then pat_img_br else pat_img) s = tag_match p s)
  /\ stripFormatting "" p = ""
  /\ forall c s,
       stripFormatting (String c s) p =
       match tag_match p (String c s) with
       | Some rest => stripFormatting rest p
       | None => String c (stripFormatting s p)
       end.
Proof.
  split; [|split].
  - apply match_at_pattern.
  - apply strip_nil.
  - intros c s. apply strip_cons.
Qed.

Lemma strip_length_upto (n : nat) (p : bool) :
  forall s, String.length s <= n ->
  String.length (stripFormatting s p) <= String.length s.
Proof.
  induction n as [|n IH]; intros [|c s] Hn; simpl in Hn;
    try (rewrite strip_nil; simpl; lia); try lia.
  rewrite strip_cons.
  destruct (tag_match p (String c s)) as [rest|] eqn:Hm.
  - apply tag_match_shorter in Hm. simpl in Hm.
    specialize (IH rest ltac:(lia)). simpl. lia.
  - specialize (IH s ltac:(lia)). simpl. lia.
Qed.

(** X2. The result is never longer than the input. *)
Theorem stripFormatting_length (s : string) (p : bool) :
  String.length (stripFormatting s p) <= String.length s.
Proof. apply (strip_length_upto (String.length s)); lia. Qed.

Lemma strip_no_match_upto (n : nat) (p : bool) :
  forall s, String.length s <= n ->
  forall u v, stripFormatting s p = u ++ v -> tag_match p v = None.
Proof.
  assert (Hnil : forall u v, "" = u ++ v -> tag_match p v = None).
  { intros [|a u] v; [|discriminate].
    change ("" ++ v) with v. intros <-. reflexivity. }
  induction n as [|n IH]; intros [|c s] Hn u v; simpl in Hn; try lia;
    try (rewrite strip_nil; apply Hnil).
  rewrite strip_cons.
  destruct (tag_match p (String c s)) as [rest|] eqn:Hm.
  - apply IH. apply tag_match_shorter in Hm. simpl in Hm. lia.
  - destruct u as [|a u].
    + change ("" ++ v) with v. intros <-. apply tag_match_strip_none, Hm.
    + change (String a u ++ v) with (String a (u ++ v)).
      intros [= _ H]. apply (IH s ltac:(lia) u v H).
Qed.

(** X3. Nothing is left to remove: the pattern matches at no position of the
    result. *)
Theorem stripFormatting_no_match_left (s u v : string) (p : bool) :
  stripFormatting s p = u ++ v ->
  Re.match_at (if p then pat_img_br else pat_img) v = None.
Proof.
  intros H. rewrite match_at_pattern.
  apply (strip_no_match_upto (String.length s) p s (le_n _) u v H).
Qed.

Lemma stripFormatting_no_match_left_witness :
  stripFormatting "<<b>b> 1 < 2" false = "b>" ++ " 1 < 2" /\
  Re.match_at pat_img " 1 < 2" = None.
Proof.
  split; [vm_compute; reflexivity|].
  apply (stripFormatting_no_match_left "<<b>b> 1 < 2" "b>" " 1 < 2" false).
  vm_compute. reflexivity.
Defined.

(** ** Line by line *)

Lemma prefix_stop (w a b : string) (d : ascii) :
  Ascii.eqb d ">" || Ascii.eqb d Re.newline = true ->
  plain w = true ->
  String.prefix w (a ++ String d b) = String.prefix w a.
Proof.
  intros Hd. revert a; induction w as [|c w IH]; intros a Hw.
  - destruct a; reflexivity.
  - simpl in Hw. repeat (apply andb_true_iff in Hw as [Hw ?]).
    destruct a as [|x a].
    + change ("" ++ String d b) with (String d b). simpl.
      destruct (ascii_dec c d) as [->|]; [|reflexivity].
      exfalso. apply orb_true_iff in Hd as [Hd|Hd];
        rewrite Hd in *; discriminate.
    + change (String x a ++ String d b) with (String x (a ++ String d b)).
      simpl. destruct (ascii_dec c x); [auto | reflexivity].
Qed.

Lemma exempt_stop (a b : string) (d : ascii) (p : bool) :
  Ascii.eqb d ">" || Ascii.eqb d Re.newline = true ->
  exempt p (a ++ String d b) = exempt p a.
Proof.
  intros Hd. unfold exempt.
  rewrite (prefix_stop "img" a b d Hd eq_refl).
  rewrite (prefix_stop "br" a b d Hd eq_refl). reflexivity.
Qed.

Lemma tag_end_line (a b : string) :
  tag_end (a ++ String Re.newline b)
  = option_map (fun r => r ++ String Re.newline b) (tag_end a).
Proof.
  induction a as [|c a IH]; [reflexivity|].
  change (String c a ++ String Re.newline b)
    with (String c (a ++ String Re.newline b)).
  simpl. destruct (Ascii.eqb c ">"); [reflexivity|].
  destruct (Ascii.eqb c Re.newline); [reflexivity | exact IH].
Qed.

Lemma tag_match_line (c : ascii) (a b : string) (p : bool) :
  tag_match p (String c (a ++ String Re.newline b))
  = option_map (fun r => r ++ String Re.newline b) (tag_match p (String c a)).
Proof.
  simpl. rewrite (exempt_stop a b Re.newline p eq_refl).
  destruct (_ && _); [apply tag_end_line | reflexivity].
Qed.

Lemma strip_line_upto (n : nat) (b : string) (p : bool) :
  forall a, String.length a <= n ->
  stripFormatting (a ++ String Re.newline b) p
  = stripFormatting a p ++ String Re.newline (stripFormatting b p).
Proof.
  induction n as [|n IH]; intros [|c a] Hn; simpl in Hn; try lia.
  - rewrite strip_nil. change ("" ++ String Re.newline b) with (String Re.newline b).
    rewrite strip_other by reflexivity. reflexivity.
  - rewrite strip_nil. change ("" ++ String Re.newline b) with (String Re.newline b).
    rewrite strip_other by reflexivity. reflexivity.
  - change (String c a ++ String Re.newline b)
      with (String c (a ++ String Re.newline b)).
    rewrite !strip_cons, tag_match_line.
    destruct (tag_match p (String c a)) as [r|] eqn:Hm; simpl.
    + apply IH. apply tag_match_shorter in Hm. simpl in Hm. lia.
    + change (String c (stripFormatting a p) ++ String Re.newline (stripFormatting b p))
        with (String c (stripFormatting a p ++ String Re.newline (stripFormatting b p))).
      f_equal. apply IH. lia.
Qed.

(** X4. The stripper works line by line: no match crosses a newline, so the
    text before a newline and the text after it are stripped on their own and
    the newline is kept. *)
Theorem stripFormatting_lines (a b : string) (p : bool) :
  stripFormatting (a ++ String Re.newline b) p
  = stripFormatting a p ++ String Re.newline (stripFormatting b p).
Proof. apply (strip_line_upto (String.length a)); lia. Qed.

(** ** Tags in general *)

Lemma tag_end_inline (body rest : string) :
  inline body = true -> tag_end (body ++ String ">" rest) = Some rest.
Proof.
  induction body as [|c body IH]; intros H; [reflexivity|].
  simpl in H. repeat (apply andb_true_iff in H as [H ?]).
  change (String c body ++ String ">" rest) with (String c (body ++ String ">" rest)).
  cbn [tag_end].
  repeat match goal with
         | E : negb _ = true |- _ => apply negb_true_iff in E; rewrite E
         end.
  auto.
Qed.

(** X5. A tag that does not begin with an exempt name and has no [>] or
    newline inside is removed, whatever else is inside. *)
Theorem stripFormatting_removes_tag (body rest : string) (p : bool) :
  exempt p body = false -> inline body = true ->
  stripFormatting ("<" ++ body ++ String ">" rest) p = stripFormatting rest p.
Proof.
  intros He Hin.
  change ("<" ++ body ++ String ">" rest) with (String "<" (body ++ String ">" rest)).
  apply strip_tag.
  - rewrite (exempt_stop body rest ">" p eq_refl). exact He.
  - apply tag_end_inline, Hin.
Qed.

Lemma stripFormatting_removes_tag_witness :
  exempt true "IMG src=1 <" = false /\ inline "IMG src=1 <" = true /\
  stripFormatting ("<" ++ "IMG src=1 <" ++ String ">" "<br>x") true
  = stripFormatting "<br>x" true.
Proof.
  split; [reflexivity|]. split; [reflexivity|].
  apply (stripFormatting_removes_tag "IMG src=1 <" "<br>x" true); reflexivity.
Defined.

(** X6. A tag that begins with [img] and has no [<], [>] or newline inside
    is copied whole, under both values of the flag. *)
Theorem stripFormatting_keeps_img (body rest : string) (p : bool) :
  plain body = true ->
  stripFormatting ("<img" ++ body ++ String ">" rest) p
  = "<img" ++ body ++ String ">" (stripFormatting rest p).
Proof.
  intros H.
  change ("<img" ++ body ++ String ">" rest)
    with (String "<" (String "i" (String "m" (String "g" (body ++ String ">" rest))))).
  rewrite strip_exempt.
  2:{ unfold exempt. apply orb_true_iff. left.
      apply (proj2 (prefix_spec "img" _)). eexists. reflexivity. }
  rewrite !strip_other by reflexivity.
  rewrite strip_plain by exact H.
  rewrite strip_other by reflexivity. reflexivity.
Qed.

Lemma stripFormatting_keeps_img_witness :
  plain " src=a.png" = true /\
  stripFormatting ("<img" ++ " src=a.png" ++ String ">" "<b>x</b>") false
  = "<img" ++ " src=a.png" ++ String ">" (stripFormatting "<b>x</b>" false).
Proof.
  split; [reflexivity|].
  apply (stripFormatting_keeps_img " src=a.png" "<b>x</b>" false). reflexivity.
Defined.

(** X7. A tag that begins with [br] and has no [<], [>] or newline inside is
    removed when line breaks are not kept and copied whole when they are. *)
Theorem stripFormatting_br_tag (body rest : string) :
  plain body = true ->
  stripFormatting ("<br" ++ body ++ String ">" rest) false
  = stripFormatting rest false
  /\ stripFormatting ("<br" ++ body ++ String ">" rest) true
     = "<br" ++ body ++ String ">" (stripFormatting rest true).
Proof. apply strip_br_tag. Qed.

Lemma stripFormatting_br_tag_witness :
  plain " /" = true /\
  stripFormatting ("<br" ++ " /" ++ String ">" "x") false = stripFormatting "x" false
  /\ stripFormatting ("<br" ++ " /" ++ String ">" "x") true
     = "<br" ++ " /" ++ String ">" (stripFormatting "x" true).
Proof.
  split; [reflexivity|].
  apply (stripFormatting_br_tag " /" "x"). reflexivity.
Defined.

(** * Further properties of the workflow *)

(** Idempotence, for use in the proofs below. *)
Lemma stripFormatting_idempotent_copy (s : string) (p : bool) :
  stripFormatting (stripFormatting s p) p = stripFormatting s p.
Proof. apply (strip_idempotent_upto (String.length s)); lia. Qed.



(** ** The loop body *)

Lemma note_step_shape (self : ClearFormattingDialog) (note note' : Note)
    (c c' : nat) :
  note_step self note c = Done (note', c') ->
  note_type note' = note_type note
  /\ List.length (fields note') = List.length (fields note).
Proof.
  unfold note_step, clear_named_field, field_names_of.
  destruct (checkbox_all self).
  - rewrite clear_all_fields_spec. intros [= <- _]. simpl.
    rewrite length_map. auto.
  - destruct (note_type note) as [names|] eqn:Hty; [|discriminate].
    destruct (index_of _ names) as [i|]; [|intros [= <- _]; auto].
    destruct (fields note !! i) as [cur|]; [|discriminate].
    destruct (String.eqb _ cur); intros [= <- _]; cbn [fields note_type];
      (split; [congruence|]); [reflexivity | apply length_insert].
Qed.

(** What the loop body does to the note does not depend on [count], and it
    adds to [count] the same amount wherever it starts. *)
Lemma note_step_count (self : ClearFormattingDialog) (note note' : Note)
    (c c' d : nat) :
  note_step self note c = Done (note', c') ->
  c <= c' /\ note_step self note d = Done (note', d + (c' - c)).
Proof.
  unfold note_step, clear_named_field, field_names_of.
  destruct (checkbox_all self).
  - rewrite !clear_all_fields_spec. intros [= <- <-].
    split; [lia|]. do 2 f_equal. lia.
  - destruct (note_type note) as [names|]; [|discriminate].
    destruct (index_of _ names) as [i|].
    + destruct (fields note !! i) as [cur|]; [|discriminate].
      destruct (String.eqb _ cur); intros [= <- <-];
        (split; [lia|]); do 2 f_equal; lia.
    + intros [= <- <-]. split; [lia|]. do 2 f_equal. lia.
Qed.

Lemma note_changes_stripped (p : bool) (fs : list string) (ty : option (list string)) :
  note_changes p (mkNote (map (fun f => stripFormatting f p) fs) ty) = false.
Proof.
  unfold note_changes. simpl. induction fs as [|f fs IH]; [reflexivity|].
  simpl. rewrite stripFormatting_idempotent_copy, String.eqb_refl. exact IH.
Qed.

(** The loop body settles a note: run on its own result, it returns that
    result and leaves [count] alone. *)
Lemma note_step_settled (self : ClearFormattingDialog) (note note' : Note)
    (c c' d : nat) :
  note_step self note c = Done (note', c') ->
  note_step self note' d = Done (note', d).
Proof.
  intros H.
  destruct (checkbox_all self) eqn:Hall.
  - assert (note_changes (checkbox_preserve_br self) note' = false) as Hch.
    { revert H. unfold note_step. rewrite Hall, clear_all_fields_spec.
      intros [= <- _]. apply note_changes_stripped. }
    destruct (note_step_shape _ _ _ _ _ H) as [Hty Hlen].
    unfold note_step. rewrite Hall, clear_all_fields_spec.
    destruct (note_changes_false _ _ Hch) as [-> ->].
    destruct note'. simpl. do 2 f_equal. lia.
  - revert H. unfold note_step, clear_named_field, field_names_of. rewrite Hall.
    destruct (note_type note) as [names|] eqn:Hty; [|discriminate].
    destruct (index_of _ names) as [i|] eqn:Hi.
    + destruct (fields note !! i) as [cur|] eqn:Hcur; [|discriminate].
      destruct (String.eqb _ cur) eqn:He; intros [= <- _].
      * rewrite Hty, Hi, Hcur, He. reflexivity.
      * cbn [fields note_type]. rewrite Hi.
        rewrite list_lookup_insert_eq by (eapply lookup_lt_Some; exact Hcur).
        rewrite stripFormatting_idempotent_copy, String.eqb_refl. reflexivity.
    + intros [= <- _]. rewrite Hty, Hi. reflexivity.
Qed.

(** ** The loop *)

Lemma for_nids_cons (self : ClearFormattingDialog) (x : N) (l : list N)
    (c : nat) (w : host) :
  for_nids self (x :: l) c w =
  match fst (get_note x w) with
  | Raised e => (Raised e, w)
  | Done nx =>
      match note_step self nx c with
      | Raised e => (Raised e, w)
      | Done (nx', c1) =>
          for_nids self l c1
            (mkHost (<[x := nx']> (col w)) (log w ++ [Flush x nx']))
      end
  end.
Proof.
  cbn [for_nids]. unfold bind. rewrite clear_note_unfold.
  destruct (fst (get_note x w)) as [nx|]; [|reflexivity].
  destruct (note_step self nx c) as [[nx' c1]|e]; reflexivity.
Qed.

Lemma for_nids_app (self : ClearFormattingDialog) (l1 l2 : list N) :
  forall c w,
  for_nids self (l1 ++ l2)%list c w =
  match for_nids self l1 c w with
  | (Done c1, w1) => for_nids self l2 c1 w1
  | (Raised e, w1) => (Raised e, w1)
  end.
Proof.
  induction l1 as [|x l1 IH]; intros c w; [reflexivity|].
  change ((x :: l1) ++ l2)%list with (x :: (l1 ++ l2))%list.
  rewrite !for_nids_cons.
  destruct (fst (get_note x w)) as [nx|]; [|reflexivity].
  destruct (note_step self nx c) as [[nx' c1]|e]; [apply IH | reflexivity].
Qed.

Lemma for_nids_frame (self : ClearFormattingDialog) (nid : N) (l : list N) :
  ~ In nid l ->
  forall c w r w',
  for_nids self l c w = (r, w') -> col w' !! nid = col w !! nid.
Proof.
  induction l as [|x l IH]; intros Hnin c w r w'.
  - intros [= _ <-]. reflexivity.
  - rewrite for_nids_cons.
    destruct (fst (get_note x w)) as [nx|]; [|intros [= _ <-]; reflexivity].
    destruct (note_step self nx c) as [[nx' c1]|e]; [|intros [= _ <-]; reflexivity].
    intros H. apply IH in H; [|intros Hin; apply Hnin; right; exact Hin].
    rewrite H. cbn [col]. apply lookup_insert_ne.
    intros ->. apply Hnin. left. reflexivity.
Qed.

Lemma for_nids_shape (self : ClearFormattingDialog) (l : list N) :
  forall c w r w',
  for_nids self l c w = (r, w') ->
  dom (col w') = dom (col w)
  /\ forall nid note,
       col w !! nid = Some note ->
       exists note',
         col w' !! nid = Some note'
         /\ note_type note' = note_type note
         /\ List.length (fields note') = List.length (fields note).
Proof.
  induction l as [|x l IH]; intros c w r w'.
  - intros [= _ <-]. split; [reflexivity|]. eauto.
  - rewrite for_nids_cons.
    destruct (fst (get_note x w)) as [nx|] eqn:Hx;
      [|intros [= _ <-]; split; [reflexivity|]; eauto].
    apply get_note_inv in Hx as [Hx _].
    destruct (note_step self nx c) as [[nx' c1]|e] eqn:Hstep;
      [|intros [= _ <-]; split; [reflexivity|]; eauto].
    intros H. apply IH in H as [Hdom Hsh]. cbn [col] in Hdom, Hsh. split.
    + rewrite Hdom. apply dom_insert_lookup_L. eauto.
    + intros nid note Hn.
      destruct (note_step_shape _ _ _ _ _ Hstep) as [Hty Hlen].
      destruct (decide (x = nid)) as [->|NE].
      * destruct (Hsh nid nx') as (n'' & Hl & Hty' & Hlen');
          [apply lookup_insert_eq|].
        rewrite Hn in Hx. injection Hx as <-.
        exists n''. split; [exact Hl|]. split; congruence.
      * apply Hsh. rewrite lookup_insert_ne by exact NE. exact Hn.
Qed.

(** The loop calls nothing but [flush]. *)
Lemma for_nids_log (self : ClearFormattingDialog) (l : list N) :
  forall c w r w',
  for_nids self l c w = (r, w') ->
  exists evs, log w' = (log w ++ evs)%list /\ forallb is_flush evs = true.
Proof.
  induction l as [|x l IH]; intros c w r w'.
  - intros [= _ <-]. exists []. rewrite app_nil_r. auto.
  - rewrite for_nids_cons.
    destruct (fst (get_note x w)) as [nx|];
      [|intros [= _ <-]; exists []; rewrite app_nil_r; auto].
    destruct (note_step self nx c) as [[nx' c1]|e];
      [|intros [= _ <-]; exists []; rewrite app_nil_r; auto].
    intros H. apply IH in H as (evs & Hlog & Hfl). cbn [log] in Hlog.
    exists (Flush x nx' :: evs). split.
    + rewrite Hlog, <- app_assoc. reflexivity.
    + simpl. exact Hfl.
Qed.

(** Where every selected note is settled, the loop changes nothing in the
    collection and leaves [count] as it was. *)
Lemma for_nids_settled (self : ClearFormattingDialog) (l : list N) :
  forall c w,
  (forall nid, In nid l ->
     exists note, col w !! nid = Some note
                  /\ note_ok note = true
                  /\ forall d, note_step self note d = Done (note, d)) ->
  exists w', for_nids self l c w = (Done c, w') /\ col w' = col w.
Proof.
  induction l as [|x l IH]; intros c w Hall.
  - exists w. auto.
  - rewrite for_nids_cons.
    destruct (Hall x (or_introl eq_refl)) as (nx & Hx & Hok & Hst).
    rewrite (get_note_ok _ _ _ Hx Hok), Hst.
    destruct (IH c (mkHost (<[x := nx]> (col w)) (log w ++ [Flush x nx])))
      as (w' & Hrun & Hcol).
    { intros nid Hin. cbn [col]. rewrite (insert_id _ _ _ Hx).
      apply Hall. right. exact Hin. }
    exists w'. split; [exact Hrun|]. rewrite Hcol. cbn [col].
    apply insert_id, Hx.
Qed.

(** On a well-formed selection without repeated ids the loop ends, and what
    it hands to [flush] is, id by id in selection order, the result of the
    loop body on the note the collection held at the start. *)
Lemma for_nids_flushes (self : ClearFormattingDialog) (c0 : gmap N Note)
    (l : list N) :
  NoDup l ->
  forall c w,
  selection_ok l (col w) = true ->
  (forall y, In y l -> col w !! y = c0 !! y) ->
  exists c' w' evs,
    for_nids self l c w = (Done c', w')
    /\ log w' = (log w ++ evs)%list
    /\ Forall2 (fun nid e =>
                  exists note note' k,
                    c0 !! nid = Some note
                    /\ note_step self note 0 = Done (note', k)
                    /\ e = Flush nid note') l evs.
Proof.
  intros Hnd. induction Hnd as [|x l Hx Hnd IH]; intros c w Hok Hsame.
  - exists c, w, []. rewrite app_nil_r. repeat split. constructor.
  - rewrite for_nids_cons.
    cbn [selection_ok forallb] in Hok. apply andb_true_iff in Hok as [Hnx Hl].
    destruct (col w !! x) as [nx|] eqn:Hlx; [|discriminate].
    rewrite (get_note_ok _ _ _ Hlx Hnx).
    destruct (note_step_ok self nx c Hnx) as (nx' & c1 & Hstep & Hok').
    rewrite Hstep.
    destruct (IH c1 (mkHost (<[x := nx']> (col w)) (log w ++ [Flush x nx'])))
      as (c' & w' & evs & Hrun & Hlog & Hall).
    { cbn [col]. apply selection_ok_insert; assumption. }
    { intros y Hy. cbn [col]. rewrite lookup_insert_ne.
      - apply Hsame. right. exact Hy.
      - intros ->. apply Hx, list_elem_of_In, Hy. }
    exists c', w', (Flush x nx' :: evs). split; [exact Hrun|]. split.
    + rewrite Hlog. cbn [log]. rewrite <- app_assoc. reflexivity.
    + constructor; [|exact Hall].
      destruct (note_step_count _ _ _ _ _ 0 Hstep) as [_ H0].
      exists nx, nx', (0 + (c1 - c)). split; [|split; [exact H0 | reflexivity]].
      rewrite <- Hlx. symmetry. apply Hsame. left. reflexivity.
Qed.

Lemma on_confirm_unfold (self : ClearFormattingDialog)
    (askUser : string -> bool) (w : host) :
  on_confirm self askUser w =
  if askUser (question self)
  then match applying self
               (mkHost (col w)
                  ((log w ++ [Checkpoint "Clear Formatting"]) ++ [ProgressStart])) with
       | (Done _, w2) =>
           (Done tt,
            mkHost (col w2)
              ((((log w2 ++ [ProgressFinish]) ++ [Reset]) ++ [Close])
               ++ [Tooltip (summary self)]))
       | (Raised e, w2) => (Raised e, w2)
       end
  else (Done tt, w).
Proof.
  unfold on_confirm. destruct (askUser (question self)); [|reflexivity].
  cbn [negb]. unfold bind at 1. cbn [emit]. unfold bind at 1. cbn [emit].
  unfold bind at 1. cbn [col log].
  destruct (applying self _) as [[c1|e] w2]; reflexivity.
Qed.

Lemma flushed_app (l1 l2 : list event) :
  flushed (l1 ++ l2) = (flushed l1 ++ flushed l2)%list.
Proof. apply omap_app. Qed.

(** On a well-formed selection the loop ends, and its log is the flushes of
    the selected notes, one each and in order. *)
Lemma for_nids_ok_log (self : ClearFormattingDialog) (l : list N) (c : nat)
    (w : host) :
  selection_ok l (col w) = true ->
  exists c' w' evs,
    for_nids self l c w = (Done c', w')
    /\ log w' = (log w ++ evs)%list
    /\ forallb is_flush evs = true
    /\ flushed evs = l.
Proof.
  intros Hok.
  destruct (for_nids_ok self l c w Hok) as (c' & w' & Hrun & Hfl).
  destruct (for_nids_log self l _ _ _ _ Hrun) as (evs & Hlog & Hall).
  exists c', w', evs. repeat split; try assumption.
  rewrite Hlog, flushed_app in Hfl. apply app_inv_head in Hfl. exact Hfl.
Qed.

(** ** The whole of [on_confirm] *)

(** X8. Whatever the answer and however the run ends, a note that is not
    selected is stored afterwards as it was before. *)
Theorem on_confirm_frame (self : ClearFormattingDialog)
    (askUser : string -> bool) (w : host) (nid : N) :
  ~ In nid (nids self) ->
  col (snd (on_confirm self askUser w)) !! nid = col w !! nid.
Proof.
  intros Hnin. rewrite on_confirm_unfold.
  destruct (askUser (question self)); [|reflexivity].
  unfold applying.
  destruct (for_nids self (nids self) 0 _) as [[c1|e] w2] eqn:Hrun;
    apply (for_nids_frame self nid _ Hnin) in Hrun; exact Hrun.
Qed.

Lemma on_confirm_frame_witness :
  ~ In 3%N (nids mixed_dialog) /\
  col (snd (on_confirm mixed_dialog yes e2e_host)) !! 3%N = col e2e_host !! 3%N.
Proof.
  assert (H : ~ In 3%N (nids mixed_dialog)) by (simpl; lia).
  split; [exact H|].
  apply (on_confirm_frame mixed_dialog yes e2e_host 3%N H).
Defined.

(** X9. [on_confirm] never adds or deletes a note, and never changes the
    note type or the number of fields of one: whatever the answer and however
    the run ends, the collection has the same ids, and each note its type and
    as many fields as before. *)
Theorem on_confirm_keeps_shape (self : ClearFormattingDialog)
    (askUser : string -> bool) (w : host) :
  dom (col (snd (on_confirm self askUser w))) = dom (col w)
  /\ forall nid note,
       col w !! nid = Some note ->
       exists note',
         col (snd (on_confirm self askUser w)) !! nid = Some note'
         /\ note_type note' = note_type note
         /\ List.length (fields note') = List.length (fields note).
Proof.
  rewrite on_confirm_unfold.
  destruct (askUser (question self)); [|split; [reflexivity | eauto]].
  unfold applying.
  destruct (for_nids self (nids self) 0 _) as [[c1|e] w2] eqn:Hrun;
    apply for_nids_shape in Hrun; exact Hrun.
Qed.

Lemma on_confirm_flushes (self : ClearFormattingDialog)
    (askUser : string -> bool) (w : host) :
  askUser (question self) = true ->
  NoDup (nids self) ->
  selection_ok (nids self) (col w) = true ->
  exists w' evs,
    on_confirm self askUser w = (Done tt, w')
    /\ log w'
       = (log w ++ [Checkpoint "Clear Formatting"; ProgressStart] ++ evs
          ++ [ProgressFinish; Reset; Close; Tooltip (summary self)])%list
    /\ Forall2 (fun nid e =>
                  exists note note' k,
                    col w !! nid = Some note
                    /\ note_step self note 0 = Done (note', k)
                    /\ e = Flush nid note') (nids self) evs.
Proof.
  intros Hask Hnd Hok. rewrite on_confirm_unfold, Hask. unfold applying.
  destruct (for_nids_flushes self (col w) (nids self) Hnd 0
              (mkHost (col w)
                 ((log w ++ [Checkpoint "Clear Formatting"]) ++ [ProgressStart]))
              Hok (fun _ _ => eq_refl))
    as (c' & w2 & evs & Hrun & Hlog & Hall).
  rewrite Hrun. eexists _, evs. split; [reflexivity|]. cbn [log] in *.
  split; [|exact Hall].
  rewrite Hlog, <- !app_assoc. reflexivity.
Qed.

(** X10. In all-fields scope, on a well-formed selection without repeated
    ids and an affirmative answer, [on_confirm] ends normally and hands to
    [flush], in selection order, each selected note with every field replaced
    by its stripped value. *)
Theorem on_confirm_all_fields (self : ClearFormattingDialog)
    (askUser : string -> bool) (w : host) :
  askUser (question self) = true ->
  checkbox_all self = true ->
  NoDup (nids self) ->
  selection_ok (nids self) (col w) = true ->
  exists w' evs,
    on_confirm self askUser w = (Done tt, w')
    /\ log w'
       = (log w ++ [Checkpoint "Clear Formatting"; ProgressStart] ++ evs
          ++ [ProgressFinish; Reset; Close; Tooltip (summary self)])%list
    /\ Forall2 (fun nid e =>
                  exists note,
                    col w !! nid = Some note
                    /\ e = Flush nid
                             (mkNote
                                (map (fun f => stripFormatting f
                                                 (checkbox_preserve_br self))
                                   (fields note))
                                (note_type note))) (nids self) evs.
Proof.
  intros Hask Hall Hnd Hok.
  destruct (on_confirm_flushes self askUser w Hask Hnd Hok)
    as (w' & evs & Hrun & Hlog & Hfl).
  exists w', evs. split; [exact Hrun|]. split; [exact Hlog|].
  eapply Forall2_impl; [exact Hfl|]. cbv beta.
  intros nid e (note & note' & k & Hn & Hstep & ->).
  exists note. split; [exact Hn|].
  unfold note_step in Hstep. rewrite Hall, clear_all_fields_spec in Hstep.
  injection Hstep as <- _. reflexivity.
Qed.

Lemma on_confirm_all_fields_witness :
  yes (question e2e_dialog) = true /\
  checkbox_all e2e_dialog = true /\
  NoDup (nids e2e_dialog) /\
  selection_ok (nids e2e_dialog) (col e2e_host) = true /\
  exists w' evs,
    on_confirm e2e_dialog yes e2e_host = (Done tt, w')
    /\ log w'
       = (log e2e_host ++ [Checkpoint "Clear Formatting"; ProgressStart] ++ evs
          ++ [ProgressFinish; Reset; Close; Tooltip (summary e2e_dialog)])%list
    /\ Forall2 (fun nid e =>
                  exists note,
                    col e2e_host !! nid = Some note
                    /\ e = Flush nid
                             (mkNote
                                (map (fun f => stripFormatting f
                                                 (checkbox_preserve_br e2e_dialog))
                                   (fields note))
                                (note_type note))) (nids e2e_dialog) evs.
Proof.
  assert (Hnd : NoDup (nids e2e_dialog)).
  { apply (NoDup_ListNoDup (nids e2e_dialog)).
    repeat constructor; simpl; lia. }
  split; [reflexivity|]. split; [reflexivity|]. split; [exact Hnd|].
  split; [reflexivity|].
  apply (on_confirm_all_fields e2e_dialog yes e2e_host eq_refl eq_refl Hnd eq_refl).
Defined.

(** X11. In single-field scope, on a well-formed selection without repeated
    ids and an affirmative answer, [on_confirm] ends normally and hands to
    [flush], in selection order, each selected note: with the field of the
    requested name (the first of that name) replaced by its stripped value
    and every other field as it was when the note type lists the name, and as
    it was when the note type does not list it. *)
Theorem on_confirm_single_field (self : ClearFormattingDialog)
    (askUser : string -> bool) (w : host) :
  askUser (question self) = true ->
  checkbox_all self = false ->
  NoDup (nids self) ->
  selection_ok (nids self) (col w) = true ->
  exists w' evs,
    on_confirm self askUser w = (Done tt, w')
    /\ log w'
       = (log w ++ [Checkpoint "Clear Formatting"; ProgressStart] ++ evs
          ++ [ProgressFinish; Reset; Close; Tooltip (summary self)])%list
    /\ Forall2 (fun nid e =>
                  exists note names,
                    col w !! nid = Some note
                    /\ note_type note = Some names
                    /\ match index_of (field_selector self) names with
                       | None => e = Flush nid note
                       | Some i =>
                           exists current,
                             fields note !! i = Some current
                             /\ e = Flush nid
                                      (mkNote
                                         (<[i := stripFormatting current
                                                   (checkbox_preserve_br self)]>
                                            (fields note))
                                         (note_type note))
                       end) (nids self) evs.
Proof.
  intros Hask Hall Hnd Hok.
  destruct (on_confirm_flushes self askUser w Hask Hnd Hok)
    as (w' & evs & Hrun & Hlog & Hfl).
  exists w', evs. split; [exact Hrun|]. split; [exact Hlog|].
  eapply Forall2_impl; [exact Hfl|]. cbv beta.
  intros nid e (note & note' & k & Hn & Hstep & ->).
  unfold note_step, clear_named_field, field_names_of in Hstep.
  rewrite Hall in Hstep.
  destruct (note_type note) as [names|] eqn:Hty; [|discriminate].
  exists note, names. split; [exact Hn|]. split; [exact Hty|].
  destruct (index_of _ names) as [i|]; [|injection Hstep as <- _; reflexivity].
  destruct (fields note !! i) as [cur|] eqn:Hcur; [|discriminate].
  exists cur. split; [reflexivity|].
  destruct (String.eqb_spec (stripFormatting cur (checkbox_preserve_br self)) cur)
    as [E|NE]; injection Hstep as <- _; [|rewrite Hty; reflexivity].
  rewrite E, (list_insert_id _ _ _ Hcur). destruct note; reflexivity.
Qed.

Lemma on_confirm_single_field_witness :
  yes (question mixed_dialog) = true /\
  checkbox_all mixed_dialog = false /\
  NoDup (nids mixed_dialog) /\
  selection_ok (nids mixed_dialog) (col mixed_host) = true /\
  exists w',
    on_confirm mixed_dialog yes mixed_host = (Done tt, w')
    /\ log w'
       = [Checkpoint "Clear Formatting"; ProgressStart;
          Flush 2%N (mkNote ["<i>x</i>"; "y"] (Some ["Text"; "Extra"]));
          Flush 1%N (mkNote ["A"; "B"] (Some ["Front"; "Back"]));
          ProgressFinish; Reset; Close; Tooltip (summary mixed_dialog)].
Proof.
  assert (Hnd : NoDup (nids mixed_dialog)).
  { apply (NoDup_ListNoDup (nids mixed_dialog)).
    repeat constructor; simpl; lia. }
  split; [reflexivity|]. split; [reflexivity|]. split; [exact Hnd|].
  split; [reflexivity|].
  destruct (on_confirm_single_field mixed_dialog yes mixed_host
              eq_refl eq_refl Hnd eq_refl) as (w' & evs & Hrun & Hlog & _).
  exists w'. split; [exact Hrun|].
  replace w' with (snd (on_confirm mixed_dialog yes mixed_host))
    by (rewrite Hrun; reflexivity).
  vm_compute. reflexivity.
Defined.

(** X12. The shape of a successful run: one checkpoint, [progress.start],
    then nothing but the flushes of the selected notes, one each and in
    selection order, then [progress.finish], [reset], [close] and the
    tooltip. Every write of the run comes after its single checkpoint. *)
Theorem on_confirm_log (self : ClearFormattingDialog)
    (askUser : string -> bool) (w : host) :
  askUser (question self) = true ->
  selection_ok (nids self) (col w) = true ->
  exists w' evs,
    on_confirm self askUser w = (Done tt, w')
    /\ log w'
       = (log w ++ [Checkpoint "Clear Formatting"; ProgressStart] ++ evs
          ++ [ProgressFinish; Reset; Close; Tooltip (summary self)])%list
    /\ forallb is_flush evs = true
    /\ flushed evs = nids self.
Proof.
  intros Hask Hok. rewrite on_confirm_unfold, Hask. unfold applying.
  destruct (for_nids_ok_log self (nids self) 0
              (mkHost (col w)
                 ((log w ++ [Checkpoint "Clear Formatting"]) ++ [ProgressStart])) Hok)
    as (c' & w2 & evs & Hrun & Hlog & Hall & Hfl).
  rewrite Hrun. eexists _, evs. split; [reflexivity|]. cbn [log] in *.
  split; [|split; assumption].
  rewrite Hlog, <- !app_assoc. reflexivity.
Qed.

Lemma on_confirm_log_witness :
  yes (question mixed_dialog) = true /\
  selection_ok (nids mixed_dialog) (col mixed_host) = true /\
  exists w' evs,
    on_confirm mixed_dialog yes mixed_host = (Done tt, w')
    /\ log w'
       = (log mixed_host ++ [Checkpoint "Clear Formatting"; ProgressStart] ++ evs
          ++ [ProgressFinish; Reset; Close; Tooltip (summary mixed_dialog)])%list
    /\ forallb is_flush evs = true
    /\ flushed evs = nids mixed_dialog.
Proof.
  split; [reflexivity|]. split; [reflexivity|].
  apply (on_confirm_log mixed_dialog yes mixed_host); reflexivity.
Defined.

(** X13. A selected id that the collection lacks stops the run with
    [NotFoundError]: the notes selected before it are flushed, the ones after
    it are not reached, and neither [progress.finish] nor the tooltip is
    called. *)
Theorem on_confirm_missing_note (self : ClearFormattingDialog)
    (askUser : string -> bool) (w : host) (l1 l2 : list N) (nid : N) :
  askUser (question self) = true ->
  nids self = (l1 ++ nid :: l2)%list ->
  selection_ok l1 (col w) = true ->
  col w !! nid = None ->
  exists w' evs,
    on_confirm self askUser w = (Raised NotFoundError, w')
    /\ log w' = (log w ++ [Checkpoint "Clear Formatting"; ProgressStart] ++ evs)%list
    /\ forallb is_flush evs = true
    /\ flushed evs = l1.
Proof.
  intros Hask Hn Hok Hmiss. rewrite on_confirm_unfold, Hask. unfold applying.
  rewrite Hn, for_nids_app.
  destruct (for_nids_ok_log self l1 0
              (mkHost (col w)
                 ((log w ++ [Checkpoint "Clear Formatting"]) ++ [ProgressStart])) Hok)
    as (c' & w1 & evs & Hrun & Hlog & Hall & Hfl).
  rewrite Hrun, for_nids_cons.
  destruct (for_nids_shape self l1 _ _ _ _ Hrun) as [Hdom _]. cbn [col] in Hdom.
  rewrite get_note_missing.
  2:{ apply not_elem_of_dom. rewrite Hdom. apply not_elem_of_dom, Hmiss. }
  exists w1, evs. split; [reflexivity|]. split; [|split; assumption].
  rewrite Hlog. cbn [log]. rewrite <- !app_assoc. reflexivity.
Qed.

Lemma on_confirm_missing_note_witness :
  yes (question (mkDialog [1%N; 9%N; 2%N] true false "Front")) = true /\
  selection_ok [1%N] (col e2e_host) = true /\
  col e2e_host !! 9%N = None /\
  exists w' evs,
    on_confirm (mkDialog [1%N; 9%N; 2%N] true false "Front") yes e2e_host
    = (Raised NotFoundError, w')
    /\ log w'
       = (log e2e_host ++ [Checkpoint "Clear Formatting"; ProgressStart] ++ evs)%list
    /\ forallb is_flush evs = true
    /\ flushed evs = [1%N].
Proof.
  split; [reflexivity|]. split; [reflexivity|]. split; [reflexivity|].
  apply (on_confirm_missing_note (mkDialog [1%N; 9%N; 2%N] true false "Front")
           yes e2e_host [1%N] [2%N] 9%N); reflexivity.
Defined.

Lemma for_nids_count_all (self : ClearFormattingDialog) (l : list N) :
  checkbox_all self = true -> NoDup l ->
  forall c w,
  selection_ok l (col w) = true ->
  exists w',
    for_nids self l c w
    = (Done (c + list_sum
                   (map (fun nid => match col w !! nid with
                                    | Some note =>
                                        changed_count (checkbox_preserve_br self)
                                          (fields note)
                                    | None => 0
                                    end) l)), w').
Proof.
  intros Hall Hnd. induction Hnd as [|x l Hx Hnd IH]; intros c w Hok.
  - exists w. simpl. rewrite Nat.add_0_r. reflexivity.
  - rewrite for_nids_cons.
    cbn [selection_ok forallb] in Hok. apply andb_true_iff in Hok as [Hnx Hl].
    destruct (col w !! x) as [nx|] eqn:Hlx; [|discriminate].
    rewrite (get_note_ok _ _ _ Hlx Hnx).
    unfold note_step. rewrite Hall, clear_all_fields_spec.
    set (nx' := mkNote _ _).
    destruct (IH (c + changed_count (checkbox_preserve_br self) (fields nx))
                (mkHost (<[x := nx']> (col w)) (log w ++ [Flush x nx'])))
      as (w' & Hrun).
    { cbn [col]. apply selection_ok_insert; [exact Hl|].
      subst nx'. unfold note_ok in *. cbn [note_type fields].
      destruct (note_type nx); [|discriminate]. rewrite length_map. exact Hnx. }
    exists w'. rewrite Hrun. do 2 f_equal. cbn [map col]. rewrite Hlx.
    rewrite (map_ext_in _
               (fun nid => match col w !! nid with
                           | Some note =>
                               changed_count (checkbox_preserve_br self) (fields note)
                           | None => 0
                           end) l).
    + unfold list_sum. simpl. lia.
    + intros y Hy. rewrite lookup_insert_ne; [reflexivity|].
      intros ->. apply Hx, list_elem_of_In, Hy.
Qed.

(** X14. In all-fields scope, on a well-formed selection without repeated
    ids, [count] ends as the number of fields, over all selected notes, that
    stripping changes. *)
Theorem applying_count_all_fields (self : ClearFormattingDialog) (w : host) :
  checkbox_all self = true ->
  NoDup (nids self) ->
  selection_ok (nids self) (col w) = true ->
  exists w',
    applying self w
    = (Done (list_sum
               (map (fun nid => match col w !! nid with
                                | Some note =>
                                    changed_count (checkbox_preserve_br self)
                                      (fields note)
                                | None => 0
                                end) (nids self))), w').
Proof.
  intros Hall Hnd Hok.
  destruct (for_nids_count_all self (nids self) Hall Hnd 0 w Hok) as (w' & H).
  exists w'. exact H.
Qed.

Lemma applying_count_all_fields_witness :
  checkbox_all e2e_dialog = true /\
  NoDup (nids e2e_dialog) /\
  selection_ok (nids e2e_dialog) (col e2e_host) = true /\
  exists w', applying e2e_dialog e2e_host = (Done 2, w').
Proof.
  assert (Hnd : NoDup (nids e2e_dialog)).
  { apply (NoDup_ListNoDup (nids e2e_dialog)).
    repeat constructor; simpl; lia. }
  split; [reflexivity|]. split; [exact Hnd|]. split; [reflexivity|].
  destruct (applying_count_all_fields e2e_dialog e2e_host eq_refl Hnd eq_refl)
    as (w' & H).
  exists w'. exact H.
Defined.

Lemma note_settled_of_unchanged (self : ClearFormattingDialog) (note : Note) :
  note_ok note = true ->
  note_changes (checkbox_preserve_br self) note = false ->
  forall d, note_step self note d = Done (note, d).
Proof.
  intros Hok Hch d.
  destruct (note_step_ok self note d Hok) as (n' & d' & Hstep & _).
  destruct (note_step_unchanged _ _ _ _ _ Hch Hstep) as [-> ->]. exact Hstep.
Qed.

(** X15. On a well-formed selection in which stripping changes no field of
    any selected note, the run counts nothing and leaves the whole collection
    as it was. *)
Theorem applying_plain_selection (self : ClearFormattingDialog) (w : host) :
  selection_ok (nids self) (col w) = true ->
  forallb (fun nid => match col w !! nid with
                      | Some note => negb (note_changes (checkbox_preserve_br self) note)
                      | None => true
                      end) (nids self) = true ->
  exists w', applying self w = (Done 0, w') /\ col w' = col w.
Proof.
  intros Hok Hplain. unfold applying. apply for_nids_settled.
  intros nid Hin.
  unfold selection_ok in Hok. rewrite forallb_forall in Hok, Hplain.
  specialize (Hok nid Hin). specialize (Hplain nid Hin).
  destruct (col w !! nid) as [note|]; [|discriminate].
  exists note. split; [reflexivity|]. split; [exact Hok|].
  apply note_settled_of_unchanged; [exact Hok|].
  apply negb_true_iff, Hplain.
Qed.

Lemma applying_plain_selection_witness :
  selection_ok [3%N; 3%N] (col e2e_host) = true /\
  exists w',
    applying (mkDialog [3%N; 3%N] true true "Front") e2e_host = (Done 0, w')
    /\ col w' = col e2e_host.
Proof.
  split; [reflexivity|].
  apply (applying_plain_selection (mkDialog [3%N; 3%N] true true "Front") e2e_host);
    reflexivity.
Defined.

(** X16. The loop body settles a note: run again on the note object it has
    just produced, with the same dialog settings, it returns that note
    unchanged and leaves [count] as it is. *)
Theorem note_step_twice (self : ClearFormattingDialog) (note note' : Note)
    (c c' d : nat) :
  note_step self note c = Done (note', c') ->
  note_step self note' d = Done (note', d).
Proof. apply note_step_settled. Qed.

Lemma note_step_twice_witness :
  note_step mixed_dialog (mkNote ["<b>A</b>"; "B"] (Some ["Front"; "Back"])) 0
  = Done (mkNote ["A"; "B"] (Some ["Front"; "Back"]), 1) /\
  note_step mixed_dialog (mkNote ["A"; "B"] (Some ["Front"; "Back"])) 5
  = Done (mkNote ["A"; "B"] (Some ["Front"; "Back"]), 5).
Proof.
  assert (H : note_step mixed_dialog
                (mkNote ["<b>A</b>"; "B"] (Some ["Front"; "Back"])) 0
              = Done (mkNote ["A"; "B"] (Some ["Front"; "Back"]), 1))
    by (vm_compute; reflexivity).
  split; [exact H|].
  apply (note_step_twice mixed_dialog _ _ 0 1 5 H).
Defined.

(** ** The legacy menu action *)

Lemma for_selected_cons (x : N) (l : list N) (w : host) :
  LegacyBrowser.for_selected (x :: l) w =
  match fst (get_note x w) with
  | Raised e => (Raised e, w)
  | Done nx =>
      let nx' := mkNote (map (fun f => stripFormatting f false) (fields nx))
                        (note_type nx) in
      LegacyBrowser.for_selected l
        (mkHost (<[x := nx']> (col w)) (log w ++ [Flush x nx']))
  end.
Proof.
  cbn [LegacyBrowser.for_selected]. unfold bind, get_note.
  destruct (col w !! x) as [n|]; [|reflexivity].
  destruct (note_type n); reflexivity.
Qed.

Lemma legacy_loop_agrees (self : ClearFormattingDialog) (l : list N) :
  checkbox_all self = true -> checkbox_preserve_br self = false ->
  forall c w1 w2,
  col w1 = col w2 ->
  exists evs,
    log (snd (LegacyBrowser.for_selected l w1)) = (log w1 ++ evs)%list
    /\ log (snd (for_nids self l c w2)) = (log w2 ++ evs)%list
    /\ col (snd (LegacyBrowser.for_selected l w1)) = col (snd (for_nids self l c w2))
    /\ match fst (LegacyBrowser.for_selected l w1), fst (for_nids self l c w2) with
       | Done _, Done _ => True
       | Raised e1, Raised e2 => e1 = e2
       | _, _ => False
       end.
Proof.
  intros Hall Hbr. induction l as [|x l IH]; intros c w1 w2 Hcol.
  - exists []. simpl. rewrite !app_nil_r. auto.
  - rewrite for_nids_cons, for_selected_cons.
    replace (fst (get_note x w1)) with (fst (get_note x w2))
      by (unfold get_note; rewrite Hcol; destruct (col w2 !! x) as [n|];
          [destruct (note_type n)|]; reflexivity).
    rewrite Hcol.
    destruct (fst (get_note x w2)) as [nx|e].
    + unfold note_step. rewrite Hall, Hbr, clear_all_fields_spec. cbv zeta.
      set (nx' := mkNote _ _).
      destruct (IH (c + changed_count false (fields nx))
                  (mkHost (<[x := nx']> (col w2)) (log w1 ++ [Flush x nx']))
                  (mkHost (<[x := nx']> (col w2)) (log w2 ++ [Flush x nx'])))
        as (evs & H1 & H2 & H3 & H4); [reflexivity|].
      exists (Flush x nx' :: evs).
      cbn [log] in H1, H2. rewrite H1, H2, <- !app_assoc. auto.
    + exists []. simpl. rewrite !app_nil_r. auto.
Qed.

Lemma legacy_onClearFormatting_unfold (l : list N) (w : host) :
  LegacyBrowser.onClearFormatting l w =
  match LegacyBrowser.for_selected l
          (mkHost (col w)
             ((log w ++ [Checkpoint "Bulk-Clear Formatting"]) ++ [ProgressStart])) with
  | (Done _, w2) =>
      (Done tt, mkHost (col w2) ((log w2 ++ [ProgressFinish]) ++ [Reset]))
  | (Raised e, w2) => (Raised e, w2)
  end.
Proof.
  unfold LegacyBrowser.onClearFormatting.
  unfold bind at 1. cbn [emit]. unfold bind at 1. cbn [emit].
  unfold bind at 1. cbn [col log].
  destruct (LegacyBrowser.for_selected l _) as [[[]|e] w2]; reflexivity.
Qed.

(** X17. The legacy menu action and the dialog run in all-fields scope,
    without keeping line breaks and with an affirmative answer, do the same to
    the collection: they end the same way (both normally, or both with the
    same exception), flush the same notes in the same order, and leave the
    same collection. *)
Theorem legacy_onClearFormatting_agrees (l : list N) (field : string)
    (askUser : string -> bool) (w : host) :
  askUser (question (mkDialog l true false field)) = true ->
  fst (LegacyBrowser.onClearFormatting l w)
  = fst (on_confirm (mkDialog l true false field) askUser w)
  /\ col (snd (LegacyBrowser.onClearFormatting l w))
     = col (snd (on_confirm (mkDialog l true false field) askUser w))
  /\ flushed (log (snd (LegacyBrowser.onClearFormatting l w)))
     = flushed (log (snd (on_confirm (mkDialog l true false field) askUser w))).
Proof.
  intros Hask. rewrite on_confirm_unfold, Hask, legacy_onClearFormatting_unfold.
  unfold applying. cbn [nids].
  destruct (legacy_loop_agrees (mkDialog l true false field) l eq_refl eq_refl 0
              (mkHost (col w)
                 ((log w ++ [Checkpoint "Bulk-Clear Formatting"]) ++ [ProgressStart]))
              (mkHost (col w)
                 ((log w ++ [Checkpoint "Clear Formatting"]) ++ [ProgressStart]))
              eq_refl) as (evs & H1 & H2 & H3 & H4).
  cbn [col log] in *.
  destruct (LegacyBrowser.for_selected l _) as [[[]|e1] w1];
    destruct (for_nids _ l 0 _) as [[c2|e2] w2]; cbn [fst snd col log] in *;
    try contradiction.
  - rewrite H1, H2. split; [reflexivity|]. split; [exact H3|].
    rewrite !flushed_app. cbn. rewrite !app_nil_r. reflexivity.
  - subst e2. split; [reflexivity|]. split; [exact H3|].
    rewrite H1, H2, !flushed_app. cbn. rewrite !app_nil_r. reflexivity.
Qed.

Lemma legacy_onClearFormatting_agrees_witness :
  yes (question (mkDialog [1%N; 9%N] true false "Front")) = true /\
  fst (LegacyBrowser.onClearFormatting [1%N; 9%N] e2e_host)
  = fst (on_confirm (mkDialog [1%N; 9%N] true false "Front") yes e2e_host)
  /\ col (snd (LegacyBrowser.onClearFormatting [1%N; 9%N] e2e_host))
     = col (snd (on_confirm (mkDialog [1%N; 9%N] true false "Front") yes e2e_host))
  /\ flushed (log (snd (LegacyBrowser.onClearFormatting [1%N; 9%N] e2e_host)))
     = flushed (log (snd (on_confirm (mkDialog [1%N; 9%N] true false "Front") yes
                            e2e_host))).
Proof.
  split; [reflexivity|].
  apply (legacy_onClearFormatting_agrees [1%N; 9%N] "Front" yes e2e_host).
  reflexivity.
Defined.

(** * The editor's context menu *)

Lemma clear_editor_fields_from (suf pre : list string) (b : bool) :
  foldl clear_editor_field_at ((pre ++ suf)%list, b)
    (seq (List.length pre) (List.length suf))
  = ((pre ++ map (fun f => stripFormatting f true) suf)%list,
     b || existsb (fun f => negb (String.eqb (stripFormatting f true) f)) suf).
Proof.
  revert pre b; induction suf as [|f suf IH]; intros pre b.
  - simpl. rewrite orb_false_r. reflexivity.
  - cbn [List.length seq foldl]. unfold clear_editor_field_at at 2.
    rewrite (list_lookup_middle pre suf f (List.length pre) eq_refl).
    cbn [existsb map].
    destruct (String.eqb_spec (stripFormatting f true) f) as [E|NE]; cbn [negb orb].
    + rewrite E.
      replace (pre ++ f :: suf)%list with ((pre ++ [f]) ++ suf)%list
        by (rewrite <- app_assoc; reflexivity).
      replace (S (List.length pre)) with (List.length (pre ++ [f])%list)
        by (rewrite length_app; simpl; lia).
      rewrite IH, <- app_assoc. reflexivity.
    + rewrite insert_app_r_alt by lia. rewrite Nat.sub_diag. cbn [insert list_insert].
      replace (pre ++ stripFormatting f true :: suf)%list
        with ((pre ++ [stripFormatting f true]) ++ suf)%list
        by (rewrite <- app_assoc; reflexivity).
      replace (S (List.length pre))
        with (List.length (pre ++ [stripFormatting f true])%list)
        by (rewrite length_app; simpl; lia).
      rewrite IH, <- app_assoc, orb_true_r. reflexivity.
Qed.

Lemma clear_all_fields_editor_eq (note : Note) :
  clear_all_fields_editor (Some note)
  = (Some (mkNote (map (fun f => stripFormatting f true) (fields note))
                  (note_type note)),
     if note_changes true note
     then [LoadNoteKeepingFocus; EditorTooltip "Cleared formatting in all fields"]
     else [EditorTooltip "No formatting to clear"])
  /\ (note_changes true note = false ->
      fst (clear_all_fields_editor (Some note)) = Some note).
Proof.
  assert (E : clear_all_fields_editor (Some note)
    = (Some (mkNote (map (fun f => stripFormatting f true) (fields note))
                    (note_type note)),
       if note_changes true note
       then [LoadNoteKeepingFocus; EditorTooltip "Cleared formatting in all fields"]
       else [EditorTooltip "No formatting to clear"])).
  { unfold clear_all_fields_editor.
    pose proof (clear_editor_fields_from (fields note) [] false) as H.
    cbn [app List.length orb] in H. rewrite H. unfold note_changes.
    destruct (existsb _ (fields note)); reflexivity. }
  split; [exact E|].
  intros Hch. rewrite E. cbn [fst].
  destruct (note_changes_false _ _ Hch) as [-> _]. destruct note; reflexivity.
Qed.

(** X18. [clear_all_fields_editor] strips every field of the open note with
    line breaks kept. It reloads the editor and reports success exactly when
    stripping changes some field; otherwise it reports that there is nothing
    to clear and the note is as it was. *)
Theorem clear_all_fields_editor_spec (note : Note) :
  clear_all_fields_editor (Some note)
  = (Some (mkNote (map (fun f => stripFormatting f true) (fields note))
                  (note_type note)),
     if note_changes true note
     then [LoadNoteKeepingFocus; EditorTooltip "Cleared formatting in all fields"]
     else [EditorTooltip "No formatting to clear"])
  /\ (note_changes true note = false ->
      fst (clear_all_fields_editor (Some note)) = Some note).
Proof. apply clear_all_fields_editor_eq. Qed.

(** X19. A second [clear_all_fields_editor] finds nothing to clear: it
    returns the note of the first call and only shows the tooltip that says
    so. *)
Theorem clear_all_fields_editor_twice (note : Note) :
  clear_all_fields_editor (fst (clear_all_fields_editor (Some note)))
  = (fst (clear_all_fields_editor (Some note)),
     [EditorTooltip "No formatting to clear"]).
Proof.
  destruct (clear_all_fields_editor_eq note) as [-> _]. cbn [fst].
  destruct (clear_all_fields_editor_eq
              (mkNote (map (fun f => stripFormatting f true) (fields note))
                      (note_type note))) as [E Hid].
  rewrite E, note_changes_stripped. f_equal.
  rewrite E in Hid. cbn [fst] in Hid. apply Hid, note_changes_stripped.
Qed.

(** X20. The editor's clear-all does to the open note what the dialog's loop
    body does in all-fields scope with line breaks kept. *)
Theorem clear_all_fields_editor_agrees (self : ClearFormattingDialog)
    (note : Note) (count : nat) :
  checkbox_all self = true -> checkbox_preserve_br self = true ->
  exists note' count',
    note_step self note count = Done (note', count')
    /\ fst (clear_all_fields_editor (Some note)) = Some note'.
Proof.
  intros Hall Hbr. unfold note_step. rewrite Hall, Hbr, clear_all_fields_spec.
  eexists _, _. split; [reflexivity|].
  destruct (clear_all_fields_editor_eq note) as [-> _]. reflexivity.
Qed.

Lemma clear_all_fields_editor_agrees_witness :
  checkbox_all (mkDialog [1%N] true true "Front") = true /\
  checkbox_preserve_br (mkDialog [1%N] true true "Front") = true /\
  exists note' count',
    note_step (mkDialog [1%N] true true "Front") editor_note_ex 0
    = Done (note', count')
    /\ fst (clear_all_fields_editor (Some editor_note_ex)) = Some note'.
Proof.
  split; [reflexivity|]. split; [reflexivity|].
  apply (clear_all_fields_editor_agrees (mkDialog [1%N] true true "Front")
           editor_note_ex 0); reflexivity.
Defined.

(** X21. [clear_current_field] on a field the note has: only that field is
    replaced, by its stripped value with line breaks kept, and the note type
    stays; a second call on the result finds nothing to clear and returns the
    same note. *)
Theorem clear_current_field_twice (note : Note) (i : nat) (name original : string) :
  fields note !! i = Some original ->
  exists note1 evs,
    clear_current_field (Some note) i name = Done (Some note1, evs)
    /\ note_type note1 = note_type note
    /\ fields note1 = <[i := stripFormatting original true]> (fields note)
    /\ clear_current_field (Some note1) i name
       = Done (Some note1,
               [EditorTooltip ("No formatting to clear in '" ++ name ++ "'")]).
Proof.
  intros Hi. unfold clear_current_field at 1. rewrite Hi.
  destruct (String.eqb_spec (stripFormatting original true) original) as [E|NE].
  - eexists _, _. split; [reflexivity|]. split; [reflexivity|].
    split; [rewrite E; symmetry; apply list_insert_id, Hi|].
    unfold clear_current_field. rewrite Hi, E, String.eqb_refl. reflexivity.
  - eexists _, _. split; [reflexivity|]. split; [reflexivity|].
    split; [reflexivity|].
    unfold clear_current_field. cbn [fields note_type].
    rewrite list_lookup_insert_eq by (eapply lookup_lt_Some; exact Hi).
    rewrite stripFormatting_idempotent_copy, String.eqb_refl. reflexivity.
Qed.

Lemma clear_current_field_twice_witness :
  fields editor_note_ex !! 0 = Some "<b>one</b><br>two" /\
  exists note1 evs,
    clear_current_field (Some editor_note_ex) 0 "Front" = Done (Some note1, evs)
    /\ note_type note1 = note_type editor_note_ex
    /\ fields note1
       = <[0 := stripFormatting "<b>one</b><br>two" true]> (fields editor_note_ex)
    /\ clear_current_field (Some note1) 0 "Front"
       = Done (Some note1,
               [EditorTooltip ("No formatting to clear in '" ++ "Front" ++ "'")]).
Proof.
  split; [reflexivity|].
  apply (clear_current_field_twice editor_note_ex 0 "Front" "<b>one</b><br>two").
  reflexivity.
Defined.

Lemma clear_current_fields_from (name : string) (ty : option (list string))
    (suf pre : list string) :
  foldl (fun on i => match clear_current_field on i name with
                     | Done (on', _) => on'
                     | Raised _ => on
                     end)
    (Some (mkNote (pre ++ suf)%list ty))
    (seq (List.length pre) (List.length suf))
  = Some (mkNote (pre ++ map (fun f => stripFormatting f true) suf)%list ty).
Proof.
  revert pre; induction suf as [|f suf IH]; intros pre; [reflexivity|].
  cbn [List.length seq foldl map]. unfold clear_current_field at 2.
  cbn [fields note_type].
  rewrite (list_lookup_middle pre suf f (List.length pre) eq_refl).
  destruct (String.eqb_spec (stripFormatting f true) f) as [E|NE].
  - rewrite E.
    replace (pre ++ f :: suf)%list with ((pre ++ [f]) ++ suf)%list
      by (rewrite <- app_assoc; reflexivity).
    replace (S (List.length pre)) with (List.length (pre ++ [f])%list)
      by (rewrite length_app; simpl; lia).
    rewrite IH, <- app_assoc. reflexivity.
  - rewrite insert_app_r_alt by lia. rewrite Nat.sub_diag. cbn [insert list_insert].
    replace (pre ++ stripFormatting f true :: suf)%list
      with ((pre ++ [stripFormatting f true]) ++ suf)%list
      by (rewrite <- app_assoc; reflexivity).
    replace (S (List.length pre))
      with (List.length (pre ++ [stripFormatting f true])%list)
      by (rewrite length_app; simpl; lia).
    rewrite IH, <- app_assoc. reflexivity.
Qed.

(** X22. Clearing the fields one after the other with [clear_current_field],
    first to last, leaves the note that [clear_all_fields_editor] leaves. *)
Theorem clear_current_field_each (note : Note) (name : string) :
  foldl (fun on i => match clear_current_field on i name with
                     | Done (on', _) => on'
                     | Raised _ => on
                     end)
    (Some note) (seq 0 (List.length (fields note)))
  = fst (clear_all_fields_editor (Some note)).
Proof.
  destruct (clear_all_fields_editor_eq note) as [-> _]. cbn [fst].
  destruct note as [fs ty]. cbn [fields note_type].
  apply (clear_current_fields_from name ty fs []).
Qed.

(** X23. The editor menu on a well-formed note: a separator and the entries
    are added after what the menu had; the last entry is the all-fields one;
    and an entry for one field is offered only for the current field, named
    as the note type names it, and triggering it does not raise. *)
Theorem add_to_editor_context_safe (note : Note) (currentField : option nat)
    (menu : list menu_item) :
  note_ok note = true ->
  exists items,
    add_to_editor_context (Some note) currentField menu
    = Done (menu ++ Separator :: items)%list
    /\ last items = Some (Action "Clear Formatting in All Fields" ClearAll)
    /\ forall label i name,
         In (Action label (ClearCurrent i name)) items ->
         currentField = Some i
         /\ (exists names, note_type note = Some names /\ names !! i = Some name)
         /\ exists r, clear_current_field (Some note) i name = Done r.
Proof.
  intros Hok. unfold add_to_editor_context, field_names_of.
  unfold note_ok in Hok.
  destruct (note_type note) as [names|] eqn:Hty; [|discriminate].
  apply Nat.eqb_eq in Hok.
  destruct currentField as [field|].
  - destruct (names !! field) as [field_name|] eqn:Hf.
    + eexists [_; _]. split; [rewrite <- app_assoc; reflexivity|].
      split; [reflexivity|].
      intros label i name [H|[H|[]]]; [|discriminate].
      injection H as _ <- <-. split; [reflexivity|]. split; [eauto|].
      apply lookup_lt_Some in Hf. rewrite Hok in Hf.
      destruct (lookup_lt_is_Some_2 (fields note) field Hf) as [cur Hcur].
      unfold clear_current_field. rewrite Hcur.
      destruct (String.eqb _ cur); eauto.
    + eexists [_]. split; [rewrite <- app_assoc; reflexivity|].
      split; [reflexivity|].
      intros label i name [H|[]]. discriminate.
  - eexists [_]. split; [rewrite <- app_assoc; reflexivity|].
    split; [reflexivity|].
    intros label i name [H|[]]. discriminate.
Qed.

Lemma add_to_editor_context_safe_witness :
  note_ok editor_note_ex = true /\
  exists items,
    add_to_editor_context (Some editor_note_ex) (Some 1) [Action "Paste" OpenDialog]
    = Done ([Action "Paste" OpenDialog] ++ Separator :: items)%list
    /\ last items = Some (Action "Clear Formatting in All Fields" ClearAll)
    /\ forall label i name,
         In (Action label (ClearCurrent i name)) items ->
         Some 1 = Some i
         /\ (exists names, note_type editor_note_ex = Some names
                           /\ names !! i = Some name)
         /\ exists r, clear_current_field (Some editor_note_ex) i name = Done r.
Proof.
  split; [reflexivity|].
  apply (add_to_editor_context_safe editor_note_ex (Some 1)
           [Action "Paste" OpenDialog]). reflexivity.
Defined.

(** * The field selector *)

Lemma index_of_In (x : string) (names : list string) :
  In x names -> exists i, index_of x names = Some i.
Proof.
  intros Hin. destruct (index_of x names) as [i|] eqn:Hi; [eauto|].
  apply index_of_None in Hi. contradiction.
Qed.

(** X24. [get_fields] reads the first selected note and changes nothing.
    When it returns field names and the dialog is confirmed in single-field
    scope with one of them, on a well-formed selection, the first selected
    note is not skipped: the first write of the run hands it to [flush] with
    the field of that name stripped. *)
Theorem get_fields_first_note (self : ClearFormattingDialog)
    (askUser : string -> bool) (w w0 : host) (names : list string) :
  get_fields (nids self) w = (Done (Some names), w0) ->
  In (field_selector self) names ->
  askUser (question self) = true ->
  checkbox_all self = false ->
  selection_ok (nids self) (col w) = true ->
  w0 = w
  /\ exists nid rest note i current w' evs,
       nids self = nid :: rest
       /\ col w !! nid = Some note
       /\ note_type note = Some names
       /\ index_of (field_selector self) names = Some i
       /\ fields note !! i = Some current
       /\ on_confirm self askUser w = (Done tt, w')
       /\ log w'
          = (log w
             ++ [Checkpoint "Clear Formatting"; ProgressStart;
                 Flush nid
                   (mkNote
                      (<[i := stripFormatting current (checkbox_preserve_br self)]>
                         (fields note))
                      (note_type note))]
             ++ evs)%list.
Proof.
  intros Hget Hin Hask Hall Hok.
  unfold get_fields in Hget.
  destruct (nids self) as [|nid rest] eqn:Hn; [discriminate|].
  unfold bind, get_note, ret in Hget.
  destruct (col w !! nid) as [note|] eqn:Hl; [|discriminate].
  destruct (note_type note) as [names'|] eqn:Hty; [|discriminate].
  rewrite Hty in Hget. injection Hget as -> <-. split; [reflexivity|].
  destruct (index_of_In _ _ Hin) as [i Hi].
  cbn [selection_ok forallb] in Hok. rewrite Hl in Hok.
  apply andb_true_iff in Hok as [Hnote Hrest].
  assert (Hlen : i < List.length (fields note)).
  { apply index_of_lt in Hi. unfold note_ok in Hnote. rewrite Hty in Hnote.
    apply Nat.eqb_eq in Hnote. lia. }
  destruct (lookup_lt_is_Some_2 _ _ Hlen) as [cur Hcur].
  destruct (note_step_ok self note 0 Hnote) as (note' & k & Hstep & Hok').
  assert (Hnote' : note' = mkNote
                     (<[i := stripFormatting cur (checkbox_preserve_br self)]>
                        (fields note)) (note_type note)).
  { revert Hstep. unfold note_step, clear_named_field, field_names_of.
    rewrite Hall, Hty, Hi, Hcur.
    destruct (String.eqb_spec (stripFormatting cur (checkbox_preserve_br self)) cur)
      as [E|NE]; intros [= <- _]; [|reflexivity].
    rewrite E, (list_insert_id _ _ _ Hcur), <- Hty. destruct note; reflexivity. }
  rewrite on_confirm_unfold, Hask. unfold applying. rewrite Hn, for_nids_cons.
  rewrite (get_note_typed nid (mkHost (col w) _) note names Hl Hty), Hstep.
  destruct (for_nids_ok_log self rest k
              (mkHost (<[nid := note']> (col w))
                 (((log w ++ [Checkpoint "Clear Formatting"]) ++ [ProgressStart])
                  ++ [Flush nid note'])))
    as (c' & w2 & evs & Hrun & Hlog & _ & _).
  { cbn [col]. apply selection_ok_insert; assumption. }
  cbn [col log]. rewrite Hrun.
  exists nid, rest, note, i, cur. eexists.
  exists (evs ++ [ProgressFinish; Reset; Close; Tooltip (summary self)])%list.
  repeat (split; [first [reflexivity | assumption]|]).
  cbn [log] in *. rewrite Hlog, <- Hnote', <- !app_assoc. reflexivity.
Qed.

Lemma get_fields_first_note_witness :
  get_fields (nids (mkDialog [1%N; 2%N] false false "Back")) mixed_host
  = (Done (Some ["Front"; "Back"]), mixed_host) /\
  In (field_selector (mkDialog [1%N; 2%N] false false "Back")) ["Front"; "Back"] /\
  selection_ok (nids (mkDialog [1%N; 2%N] false false "Back")) (col mixed_host) = true /\
  exists nid rest note i current w' evs,
    nids (mkDialog [1%N; 2%N] false false "Back") = nid :: rest
    /\ col mixed_host !! nid = Some note
    /\ note_type note = Some ["Front"; "Back"]
    /\ index_of (field_selector (mkDialog [1%N; 2%N] false false "Back"))
         ["Front"; "Back"] = Some i
    /\ fields note !! i = Some current
    /\ on_confirm (mkDialog [1%N; 2%N] false false "Back") yes mixed_host
       = (Done tt, w')
    /\ log w'
       = (log mixed_host
          ++ [Checkpoint "Clear Formatting"; ProgressStart;
              Flush nid
                (mkNote
                   (<[i := stripFormatting current
                             (checkbox_preserve_br
                                (mkDialog [1%N; 2%N] false false "Back"))]>
                      (fields note))
                   (note_type note))]
          ++ evs)%list.
Proof.
  assert (Hin : In (field_selector (mkDialog [1%N; 2%N] false false "Back"))
                  ["Front"; "Back"]) by (right; left; reflexivity).
  split; [reflexivity|]. split; [exact Hin|]. split; [reflexivity|].
  apply (get_fields_first_note (mkDialog [1%N; 2%N] false false "Back") yes
           mixed_host mixed_host ["Front"; "Back"] eq_refl Hin eq_refl eq_refl eq_refl).
Defined.

Lemma on_confirm_keeps_shape_witness :
  dom (col (snd (on_confirm e2e_dialog yes e2e_host))) = dom (col e2e_host)
  /\ exists note',
       col (snd (on_confirm e2e_dialog yes e2e_host)) !! 1%N = Some note'
       /\ note_type note' = Some ["Front"; "Back"]
       /\ List.length (fields note') = 2.
Proof.
  destruct (on_confirm_keeps_shape e2e_dialog yes e2e_host) as [Hdom Hsh].
  split; [exact Hdom|].
  apply (Hsh 1%N (mkNote ["<b>A</b>"; "B"] (Some ["Front"; "Back"]))).
  reflexivity.
Defined.

Lemma clear_all_fields_editor_spec_witness :
  note_changes true (mkNote ["a<br>b"; "c"] None) = false /\
  fst (clear_all_fields_editor (Some (mkNote ["a<br>b"; "c"] None)))
  = Some (mkNote ["a<br>b"; "c"] None).
Proof.
  split; [reflexivity|].
  apply (clear_all_fields_editor_spec (mkNote ["a<br>b"; "c"] None)).
  reflexivity.
Defined.

(** * Two more facts about the stripper *)

(** X25. Where no [<] of the first text is left open (each is followed, in
    that text, by a [>] or a newline), a concatenation is stripped part by
    part. *)
Theorem stripFormatting_app (s rest : string) (p : bool) :
  open_lt s false = false ->
  stripFormatting (s ++ rest) p = stripFormatting s p ++ stripFormatting rest p.
Proof. apply strip_app. Qed.

Lemma stripFormatting_app_witness :
  open_lt "<b>x</b> 1 > 0" false = false /\
  stripFormatting ("<b>x</b> 1 > 0" ++ "<i>y</i>") true
  = stripFormatting "<b>x</b> 1 > 0" true ++ stripFormatting "<i>y</i>" true.
Proof.
  split; [reflexivity|].
  apply (stripFormatting_app "<b>x</b> 1 > 0" "<i>y</i>" true). reflexivity.
Defined.

Lemma strip_fixed_of_no_match (s : string) (p : bool) :
  (forall u v, s = u ++ v -> tag_match p v = None) -> stripFormatting s p = s.
Proof.
  induction s as [|c s IH]; intros H; [apply strip_nil|].
  rewrite strip_copy by (apply (H "" (String c s)); reflexivity).
  f_equal. apply IH. intros u v ->. apply (H (String c u) v). reflexivity.
Qed.

(** X26. The stripper returns its input unchanged exactly when the pattern
    matches at no position of it: this is when the workflow's test
    [result != field] finds no change. *)
Theorem stripFormatting_fixed_iff (s : string) (p : bool) :
  stripFormatting s p = s
  <-> forall u v, s = u ++ v ->
        Re.match_at (if p then pat_img_br else pat_img) v = None.
Proof.
  split.
  - intros E u v Hs. rewrite match_at_pattern.
    apply (strip_no_match_upto (String.length s) p s (le_n _) u v).
    rewrite E. exact Hs.
  - intros H. apply strip_fixed_of_no_match.
    intros u v Hs. rewrite <- match_at_pattern. apply (H u v Hs).
Qed.

Lemma stripFormatting_fixed_iff_witness :
  stripFormatting "1 > 2 <img a>" false = "1 > 2 <img a>" /\
  Re.match_at pat_img "<img a>" = None.
Proof.
  assert (E : stripFormatting "1 > 2 <img a>" false = "1 > 2 <img a>")
    by (vm_compute; reflexivity).
  split; [exact E|].
  apply (proj1 (stripFormatting_fixed_iff "1 > 2 <img a>" false) E "1 > 2 " "<img a>").
  vm_compute. reflexivity.
Defined.
